(** * InterviewCoach: the record / upload / render component

    A shallow embedding of [frontend/src/components/InterviewCoach.tsx].

    The component is event driven.  Its handlers ([startRecording],
    [stopRecording], [sendAudioToServer], the two recorder listeners and the
    timeout callback) are embedded as functions on an explicit [State]; the
    browser (microphone, recorder, timers, network) is the environment, and
    delivers the events of [Event].  A state update made by a handler is
    in force when the next event is handled.  The JSX returned by the
    component is embedded as the function [render] from the state to an
    element tree. *)

From Stdlib Require Import ZArith String Ascii List DecimalString SpecFloat Lia.
From stdpp Require Import base list strings.
Import ListNotations.
Local Open Scope string_scope.
Local Open Scope list_scope.
Local Open Scope Z_scope.

(** ** JavaScript numbers *)

(** A JS [number] is an IEEE 754 binary64 value.  The Standard Library's
    [spec_float] is that datatype: signed zeros and infinities, NaN, and
    the finite values [(-1)^s * m * 2^e]. *)
Module Number.

Definition number : Set := spec_float.

Definition prec : Z := 53.
Definition emax : Z := 1024.

(** The number denoted by an integer literal. *)
Definition of_Z (z : Z) : number := binary_normalize prec emax z 0 false.

(** [x * y] and [x / y], correctly rounded. *)
Definition mul (x y : number) : number := SFmul prec emax x y.
Definition div (x y : number) : number := SFdiv prec emax x y.

(** The number denoted by the decimal literal [n / 10^d]: both operands
    are exact, and the division rounds to the nearest binary64 value. *)
Definition of_decimal (n : Z) (d : Z) : number := div (of_Z n) (of_Z (10 ^ d)).

(** The magnitude of a finite number as an exact fraction [num / den]. *)
Definition num (m : positive) (e : Z) : Z :=
  if 0 <=? e then Z.pos m * 2 ^ e else Z.pos m.
Definition den (e : Z) : Z :=
  if 0 <=? e then 1 else 2 ^ (- e).

(** A text child of an element: a string, or a number, which the host
    prints with its default conversion [Number::toString]. *)
Inductive Child : Set :=
| Str (s : string)
| Num (x : number).

Definition dec (z : Z) : string := NilZero.string_of_uint (N.to_uint (Z.to_N z)).

(** Left padding of a digit string with zeros, up to [f] characters. *)
Definition pad (f : nat) (s : string) : string :=
  string_of_list_ascii (repeat "0"%char (f - String.length s)) +:+ s.

(** The integer [n] for which [n / 10^f - num / den] is as close to zero
    as possible; of two such [n], the larger. *)
Definition nearest (f : nat) (nm dn : Z) : Z :=
  (2 * nm * 10 ^ Z.of_nat f + dn) / (2 * dn).

(** [n] written with [f] digits after the point. *)
Definition fixed (f : nat) (n : Z) : string :=
  let a := dec (n / 10 ^ Z.of_nat f) in
  match f with
  | O => a
  | _ => a +:+ "." +:+ pad f (dec (n mod 10 ^ Z.of_nat f))
  end.

(** [x.toFixed(f)].  A value that is not finite, or whose magnitude
    reaches [10^21], is printed by [Number::toString]; the result is then
    the same text as that of the number itself as a child. *)
Definition toFixed (f : nat) (x : number) : Child :=
  match x with
  | S754_nan | S754_infinity _ => Num x
  | S754_zero _ => Str (fixed f 0)
  | S754_finite s m e =>
      if 10 ^ 21 * den e <=? num m e then Num x
      else Str ((if s then "-" else "") +:+ fixed f (nearest f (num m e) (den e)))
  end.

(** The finite numbers that [toFixed] prints in fixed notation. *)
Definition fixed_range (x : number) : bool :=
  match x with
  | S754_nan | S754_infinity _ => false
  | S754_zero _ => true
  | S754_finite _ m e => negb (10 ^ 21 * den e <=? num m e)
  end.

End Number.
Export Number.

(** ** Data model *)

(** A [Blob]: immutable bytes and a MIME type. *)
Record Blob : Set := mkBlob {
  blob_bytes : list Byte.byte;
  blob_type : string
}.

(** [new Blob(parts, { type })]: the bytes of the parts, in order. *)
Definition new_Blob (parts : list Blob) (type : string) : Blob :=
  mkBlob (List.concat (List.map blob_bytes parts)) type.

Record AnalysisResult : Set := mkAnalysis {
  total_words : number;
  filler_words : number;
  filler_ratio : number
}.

Record ScoreResult : Set := mkScore {
  score_value : number;                (* the field [score] *)
  matched_keywords : list string
}.

Record ProcessedResult : Set := mkResult {
  success : bool;
  transcription : string;
  analysis : AnalysisResult;
  score : option ScoreResult;          (* [ScoreResult | null] *)
  feedback : list string
}.

(** *** Host objects *)

Inductive RecordingState : Set := inactive | recording | paused.

Inductive TrackState : Set := live | ended.

Definition RecordingState_eqb (a b : RecordingState) : bool :=
  match a, b with
  | inactive, inactive | recording, recording | paused, paused => true
  | _, _ => false
  end.

(** A [MediaRecorder] object created by [startRecording].  Its two
    listeners are always the same two closures; what differs from one
    recorder to the next is the [jobDescription] that the closure of
    [sendAudioToServer] captured, at the render in which the button was
    clicked.  [stop_queued] holds between the call of [stop()] and the
    [stop] event that the host fires for it. *)
Record MediaRecorder : Set := mkRecorder {
  rec_state : RecordingState;
  rec_stream : list TrackState;
  stop_queued : bool;
  captured_jobDescription : string
}.

Inductive FormDataValue : Set :=
| File (b : Blob)
| Field (s : string).

Definition FormData : Set := list (string * FormDataValue).

Record Request : Set := mkRequest {
  req_url : string;
  req_method : string;
  req_body : FormData
}.

(** How one [fetch] followed by [response.json()] ends: the fetch rejects;
    or a response with some status arrives and its body is not JSON, so
    that [json()] rejects; or the body parses.  The parsed value is typed
    as the state that receives it, [ProcessedResult | null]. *)
Inductive Outcome : Set :=
| NetworkError (err : string)
| BodyNotJson (status : Z) (err : string)
| Body (status : Z) (data : option ProcessedResult).

(** *** The state of the component and of the host around it *)

Record State : Set := mkState {
  (* useState *)
  isRecording : bool;
  jobDescription : string;
  loading : bool;
  result : option ProcessedResult;
  (* useRef *)
  mediaRecorderRef : option nat;       (* index into [recorders], or null *)
  chunksRef : list Blob;
  (* host *)
  recorders : list MediaRecorder;      (* every recorder object created *)
  micRequests : list string;           (* suspended [startRecording] calls,
                                          each with its [jobDescription] *)
  timers : list Z;                     (* deadlines of the armed timeouts *)
  clock : Z;                           (* milliseconds *)
  fetches : list Request;              (* uploads in flight *)
  alerts : list string;
  console : list (string * string)
}.

Definition init : State :=
  mkState false "" false None None [] [] [] [] 0 [] [] [].

Definition set_isRecording (b : bool) (s : State) : State :=
  mkState b (jobDescription s) (loading s) (result s) (mediaRecorderRef s)
    (chunksRef s) (recorders s) (micRequests s) (timers s) (clock s)
    (fetches s) (alerts s) (console s).

Definition set_jobDescription (v : string) (s : State) : State :=
  mkState (isRecording s) v (loading s) (result s) (mediaRecorderRef s)
    (chunksRef s) (recorders s) (micRequests s) (timers s) (clock s)
    (fetches s) (alerts s) (console s).

Definition set_loading (b : bool) (s : State) : State :=
  mkState (isRecording s) (jobDescription s) b (result s) (mediaRecorderRef s)
    (chunksRef s) (recorders s) (micRequests s) (timers s) (clock s)
    (fetches s) (alerts s) (console s).

Definition set_result (r : option ProcessedResult) (s : State) : State :=
  mkState (isRecording s) (jobDescription s) (loading s) r (mediaRecorderRef s)
    (chunksRef s) (recorders s) (micRequests s) (timers s) (clock s)
    (fetches s) (alerts s) (console s).

Definition set_mediaRecorderRef (r : option nat) (s : State) : State :=
  mkState (isRecording s) (jobDescription s) (loading s) (result s) r
    (chunksRef s) (recorders s) (micRequests s) (timers s) (clock s)
    (fetches s) (alerts s) (console s).

Definition set_chunksRef (c : list Blob) (s : State) : State :=
  mkState (isRecording s) (jobDescription s) (loading s) (result s)
    (mediaRecorderRef s) c (recorders s) (micRequests s) (timers s) (clock s)
    (fetches s) (alerts s) (console s).

Definition set_recorders (l : list MediaRecorder) (s : State) : State :=
  mkState (isRecording s) (jobDescription s) (loading s) (result s)
    (mediaRecorderRef s) (chunksRef s) l (micRequests s) (timers s) (clock s)
    (fetches s) (alerts s) (console s).

Definition set_micRequests (l : list string) (s : State) : State :=
  mkState (isRecording s) (jobDescription s) (loading s) (result s)
    (mediaRecorderRef s) (chunksRef s) (recorders s) l (timers s) (clock s)
    (fetches s) (alerts s) (console s).

Definition set_timers (l : list Z) (s : State) : State :=
  mkState (isRecording s) (jobDescription s) (loading s) (result s)
    (mediaRecorderRef s) (chunksRef s) (recorders s) (micRequests s) l (clock s)
    (fetches s) (alerts s) (console s).

Definition set_clock (t : Z) (s : State) : State :=
  mkState (isRecording s) (jobDescription s) (loading s) (result s)
    (mediaRecorderRef s) (chunksRef s) (recorders s) (micRequests s) (timers s) t
    (fetches s) (alerts s) (console s).

Definition set_fetches (l : list Request) (s : State) : State :=
  mkState (isRecording s) (jobDescription s) (loading s) (result s)
    (mediaRecorderRef s) (chunksRef s) (recorders s) (micRequests s) (timers s)
    (clock s) l (alerts s) (console s).

(** [alert(msg)] *)
Definition alert (msg : string) (s : State) : State :=
  mkState (isRecording s) (jobDescription s) (loading s) (result s)
    (mediaRecorderRef s) (chunksRef s) (recorders s) (micRequests s) (timers s)
    (clock s) (fetches s) (alerts s ++ [msg]) (console s).

(** [console.error(msg, err)] *)
Definition console_error (msg err : string) (s : State) : State :=
  mkState (isRecording s) (jobDescription s) (loading s) (result s)
    (mediaRecorderRef s) (chunksRef s) (recorders s) (micRequests s) (timers s)
    (clock s) (fetches s) (alerts s) (console s ++ [(msg, err)]).

(** ** The handlers *)

(** [mediaRecorderRef.current?.state === 'recording'] *)
Definition current_is_recording (s : State) : bool :=
  match mediaRecorderRef s with
  | Some r =>
      match recorders s !! r with
      | Some m => RecordingState_eqb (rec_state m) recording
      | None => false
      end
  | None => false
  end.

(** [recorder.stop()] on a recorder that is recording: its state becomes
    inactive at once; the last [dataavailable] and the [stop] event come
    later, from the host. *)
Definition MediaRecorder_stop (m : MediaRecorder) : MediaRecorder :=
  mkRecorder inactive (rec_stream m) true (captured_jobDescription m).

(** [recorder.stream.getTracks().forEach(track => track.stop())] *)
Definition stop_tracks (m : MediaRecorder) : MediaRecorder :=
  mkRecorder (rec_state m) (List.map (fun _ => ended) (rec_stream m))
    (stop_queued m) (captured_jobDescription m).

Definition stopRecording (s : State) : State :=
  if current_is_recording s then
    match mediaRecorderRef s with
    | Some r =>
        let s1 := set_recorders (alter MediaRecorder_stop r (recorders s)) s in
        let s2 := set_recorders (alter stop_tracks r (recorders s1)) s1 in
        set_isRecording false s2
    | None => s
    end
  else s.

Definition endpoint : string := "http://localhost:5000/api/process_audio".

Definition upload_failed_alert : string :=
  "Error processing audio. Please try again.".

Definition microphone_alert : string :=
  "Error accessing microphone. Please ensure you have granted microphone permissions.".

(** [sendAudioToServer(audioBlob)], up to its first [await]; [jd] is the
    [jobDescription] of the closure. *)
Definition sendAudioToServer (jd : string) (audioBlob : Blob) (s : State) : State :=
  let s1 := set_loading true s in
  let formData := [("audio", File audioBlob); ("job_description", Field jd)] in
  set_fetches (fetches s1 ++ [mkRequest endpoint "POST" formData]) s1.

(** The rest of [sendAudioToServer]: [try] / [catch] / [finally]. *)
Definition sendAudioToServer_settled (o : Outcome) (s : State) : State :=
  let s1 :=
    match o with
    | Body _ data => set_result data s
    | NetworkError err | BodyNotJson _ err =>
        alert upload_failed_alert
          (console_error "Error sending audio to server:" err s)
    end in
  set_loading false s1.

(** The [dataavailable] listener. *)
Definition on_dataavailable (data : Blob) (s : State) : State :=
  set_chunksRef (chunksRef s ++ [data]) s.

(** The [stop] listener. *)
Definition on_stop (jd : string) (s : State) : State :=
  let audioBlob := new_Blob (chunksRef s) "audio/wav" in
  sendAudioToServer jd audioBlob s.

(** The callback given to [setTimeout]. *)
Definition on_timeout (s : State) : State :=
  if current_is_recording s then stopRecording s else s.

(** [startRecording()], up to its [await]: the request for the microphone
    is pending. *)
Definition startRecording (s : State) : State :=
  set_micRequests (micRequests s ++ [jobDescription s]) s.

(** [startRecording] resumed with a stream: the rest of the [try] block.
    The constructor of the recorder and [start()] are taken not to
    throw. *)
Definition startRecording_granted (jd : string) (stream : list TrackState)
    (s : State) : State :=
  let r := length (recorders s) in
  let s1 := set_recorders (recorders s ++ [mkRecorder inactive stream false jd]) s in
  let s2 := set_mediaRecorderRef (Some r) s1 in
  let s3 := set_chunksRef [] s2 in
  (* the two listeners are attached: they are [on_dataavailable] and [on_stop jd] *)
  let s4 := set_recorders
              (alter (fun m => mkRecorder recording (rec_stream m) (stop_queued m)
                                 (captured_jobDescription m)) r (recorders s3)) s3 in
  let s5 := set_isRecording true s4 in
  set_timers (timers s5 ++ [clock s5 + 30000]) s5.

(** [startRecording] resumed with a rejection: the [catch] block. *)
Definition startRecording_catch (err : string) (s : State) : State :=
  alert microphone_alert
    (console_error "Error accessing microphone:" err s).

(** The button: [onClick={isRecording ? stopRecording : startRecording}]. *)
Definition onClick (s : State) : State :=
  if isRecording s then stopRecording s else startRecording s.

(** The text field: [onChange={(e) => setJobDescription(e.target.value)}]. *)
Definition onChange (value : string) (s : State) : State :=
  set_jobDescription value s.

(** ** Events *)

Inductive Event : Set :=
| Click                                        (* the record button *)
| Change (value : string)                      (* the job description field *)
| MicGranted (i : nat) (tracks : nat)          (* getUserMedia resolves *)
| MicDenied (i : nat) (err : string)           (* getUserMedia rejects *)
| DataAvailable (r : nat) (data : Blob)        (* recorder [r] delivers a chunk *)
| Stopped (r : nat)                            (* recorder [r] fires [stop] *)
| Settled (i : nat) (o : Outcome)              (* upload [i] ends *)
| Elapse (dt : Z)                              (* time passes *)
| Timeout (i : nat).                           (* timer [i] fires *)

(** One event.  [None] when the host cannot deliver the event in that
    state: there is no such pending request, recorder or timer; a recorder
    delivers data only while it records or while its [stop] is queued; a
    timer fires when its deadline is reached, and time does not pass a
    deadline before the timer has fired. *)
Definition step (s : State) (ev : Event) : option State :=
  match ev with
  | Click => Some (onClick s)
  | Change value => Some (onChange value s)
  | MicGranted i tracks =>
      match micRequests s !! i with
      | Some jd =>
          Some (startRecording_granted jd (repeat live tracks)
                  (set_micRequests (delete i (micRequests s)) s))
      | None => None
      end
  | MicDenied i err =>
      match micRequests s !! i with
      | Some _ =>
          Some (startRecording_catch err
                  (set_micRequests (delete i (micRequests s)) s))
      | None => None
      end
  | DataAvailable r data =>
      match recorders s !! r with
      | Some m =>
          if RecordingState_eqb (rec_state m) recording || stop_queued m
          then Some (on_dataavailable data s)
          else None
      | None => None
      end
  | Stopped r =>
      match recorders s !! r with
      | Some m =>
          if stop_queued m
          then Some (on_stop (captured_jobDescription m)
                       (set_recorders
                          (alter (fun m => mkRecorder (rec_state m) (rec_stream m)
                                             false (captured_jobDescription m))
                                 r (recorders s)) s))
          else None
      | None => None
      end
  | Settled i o =>
      match fetches s !! i with
      | Some _ =>
          Some (sendAudioToServer_settled o
                  (set_fetches (delete i (fetches s)) s))
      | None => None
      end
  | Elapse dt =>
      if (0 <=? dt) && forallb (fun t => clock s + dt <=? t) (timers s)
      then Some (set_clock (clock s + dt) s)
      else None
  | Timeout i =>
      match timers s !! i with
      | Some t =>
          if t <=? clock s
          then Some (on_timeout (set_timers (delete i (timers s)) s))
          else None
      | None => None
      end
  end.

Fixpoint run (s : State) (tr : list Event) : option State :=
  match tr with
  | [] => Some s
  | ev :: tr' =>
      match step s ev with
      | Some s' => run s' tr'
      | None => None
      end
  end.

(** The states the component can be in. *)
Definition reachable (s : State) : Prop :=
  exists tr, run init tr = Some s.

(** ** The rendered output *)

Inductive Tag : Set := Container | Paper | Box | Grid | GridItem | Fragment.

Inductive Icon : Set := MicIcon | StopIcon.

(** What the button's [onClick] is bound to. *)
Inductive Handler : Set := call_startRecording | call_stopRecording.

#[warnings="-register-all"]
Inductive Element : Set :=
| Node (tag : Tag) (children : list Element)
| Typography (variant : option string) (children : list Child)
| TextField (value placeholder : string)
| Button (color : string) (startIcon : Icon) (handler : Handler) (label : string)
| CircularProgress.

(** [cond && <element/>] as a list of children: the element, or nothing. *)
Definition when (cond : bool) (e : Element) : list Element :=
  if cond then [e] else [].

Definition metric (title : string) (value : Child) : Element :=
  Node GridItem
    [Node Box [Typography (Some "subtitle1") [Str title];
               Typography (Some "h4") [value]]].

Definition analysis_paper (a : AnalysisResult) : Element :=
  Node Paper
    [Typography (Some "h6") [Str "Speech Analysis"];
     Node Grid
       [metric "Total Words" (Num (total_words a));
        metric "Filler Words" (Num (filler_words a));
        Node GridItem
          [Node Box
             [Typography (Some "subtitle1") [Str "Filler Word Ratio"];
              Typography (Some "h4")
                [toFixed 1 (Number.mul (filler_ratio a) (of_Z 100)); Str "%"]]]]].

(** The block under [result.score && (...)]. *)
Definition score_paper (sc : ScoreResult) : Element :=
  Node Paper
    ([Typography (Some "h6") [Str "Job Relevance Analysis"];
      Node Box
        [Typography (Some "h4") [toFixed 1 (score_value sc); Str "%"];
         Typography (Some "subtitle1") [Str "Relevance Score"]]]
     ++ when (0 <? length (matched_keywords sc))%nat
          (Typography (Some "body1")
             [Str "Matched Keywords: ";
              Str (String.concat ", " (matched_keywords sc))])).

Definition feedback_paper (fb : list string) : Element :=
  Node Paper
    (Typography (Some "h6") [Str "Feedback & Suggestions"]
     :: List.map (fun f => Typography (Some "body1") [Str f]) fb).

(** The fragment under [result && (...)]. *)
Definition result_view (r : ProcessedResult) : list Element :=
  [Node Paper
     [Typography (Some "h6") [Str "Your Answer"];
      Typography (Some "body1") [Str (transcription r)]];
   analysis_paper (analysis r)]
  ++ match score r with
     | Some sc => [score_paper sc]
     | None => []
     end
  ++ [feedback_paper (feedback r)].

(** The block under [loading && (...)]. *)
Definition loading_box : Element :=
  Node Box
    [CircularProgress;
     Typography None [Str "Processing your response..."]].

Definition render (s : State) : Element :=
  Node Container
    ([Typography (Some "h3") [Str "AI Interview Coach 🎯"];
      Node Paper
        [Typography (Some "h6") [Str "Job Description (Optional)"];
         TextField (jobDescription s)
           "Paste the job description here to get more relevant feedback..."];
      Node Paper
        [Typography (Some "h6") [Str "Practice Interview"];
         Button (if isRecording s then "error" else "primary")
                (if isRecording s then StopIcon else MicIcon)
                (if isRecording s then call_stopRecording else call_startRecording)
                (if isRecording s then "Stop Recording" else "Start Recording (30s)")]]
     ++ when (loading s) loading_box
     ++ match result s with
        | Some r => [Node Fragment (result_view r)]
        | None => []
        end).

(** *** Reading a tree *)

(** Every element of a tree, in document order. *)
Fixpoint elements (e : Element) : list Element :=
  e :: match e with
       | Node _ cs => flat_map elements cs
       | _ => []
       end.

(** The text of a [Typography]: its children side by side.  A number
    child has the text that the host gives it, which is not modelled. *)
Fixpoint text (cs : list Child) : option string :=
  match cs with
  | [] => Some ""
  | Str s :: cs' =>
      match text cs' with
      | Some t => Some (s +:+ t)
      | None => None
      end
  | Num _ :: _ => None
  end.

(** The [Typography] contents of a tree, in document order. *)
Definition typographies (e : Element) : list (list Child) :=
  flat_map (fun x => match x with
                     | Typography _ cs => [cs]
                     | _ => []
                     end) (elements e).

(** The contents of the result fragments of a tree. *)
Definition fragments (e : Element) : list (list Element) :=
  flat_map (fun x => match x with
                     | Node Fragment cs => [cs]
                     | _ => []
                     end) (elements e).

(** ** Vocabulary of the properties *)

(** The flag and the recorder: while [isRecording] is false, the recorder
    that [mediaRecorderRef] holds is not recording. *)
Definition flag_covers_recorder (s : State) : Prop :=
  isRecording s = false -> current_is_recording s = false.

(** The events that may come between the start of the session of recorder
    [r] and its [stop] event without making it another session: anything
    but a new start of recording or a chunk from another recorder. *)
Definition in_session (r : nat) (ev : Event) : bool :=
  match ev with
  | MicGranted _ _ => false
  | DataAvailable r' _ => Nat.eqb r' r
  | _ => true
  end.

(** The chunks that recorder [r] delivers in a trace, in order. *)
Fixpoint delivered_by (r : nat) (tr : list Event) : list Blob :=
  match tr with
  | [] => []
  | DataAvailable r' data :: tr' =>
      if Nat.eqb r' r then data :: delivered_by r tr' else delivered_by r tr'
  | _ :: tr' => delivered_by r tr'
  end.

Definition upload_request (audioBlob : Blob) (jd : string) : Request :=
  mkRequest endpoint "POST"
    [("audio", File audioBlob); ("job_description", Field jd)].

Definition sample_chunk : Blob :=
  mkBlob [Byte.x52; Byte.x49; Byte.x46; Byte.x46] "audio/webm".

(** A session stopped by hand after 5 seconds, and a second session
    started 5 seconds later, which is 20 seconds old at the end. *)
Definition restart_trace : list Event :=
  [Click; MicGranted 0 1; Elapse 5000;
   Click; DataAvailable 0 sample_chunk; Stopped 0; Elapse 5000;
   Click; MicGranted 0 1; Elapse 20000].

(** The recorders that are capturing. *)
Definition capturing (s : State) : list MediaRecorder :=
  List.filter (fun m => RecordingState_eqb (rec_state m) recording) (recorders s).

(** The recorders whose stream still holds the microphone. *)
Definition holding_microphone (s : State) : list MediaRecorder :=
  List.filter (fun m => existsb (fun t => match t with live => true | ended => false end)
                          (rec_stream m)) (recorders s).

(** Two clicks on the start button before the microphone is granted. *)
Definition double_start_trace : list Event :=
  [Click; Click; MicGranted 0 1; MicGranted 0 1].

Definition sample_result : ProcessedResult :=
  mkResult true "hello world"
    (mkAnalysis (of_Z 2) (of_Z 0) (of_Z 0)) None ["Good job"].

(** A first session whose upload is answered, then a second session whose
    upload is in flight. *)
Definition second_upload_trace : list Event :=
  [Click; MicGranted 0 1; Click; DataAvailable 0 sample_chunk; Stopped 0;
   Settled 0 (Body 200 (Some sample_result));
   Click; MicGranted 0 1; Click; DataAvailable 1 sample_chunk; Stopped 1].

Definition sign_text (x : number) : string :=
  match x with
  | S754_finite true _ _ => "-"
  | _ => ""
  end.

(** [n] is the number of tenths nearest to the magnitude of [x], the
    upper one of two: [10 |x| - 1/2 < n <= 10 |x| + 1/2]. *)
Definition nearest_tenth (x : number) (n : Z) : Prop :=
  match x with
  | S754_zero _ => n = 0
  | S754_finite _ m e =>
      20 * num m e - den e < 2 * n * den e <= 20 * num m e + den e
  | _ => False
  end.

(** The keyword line, when there is one. *)
Definition keyword_line (kws : list string) : list (option string) :=
  match kws with
  | [] => []
  | _ :: _ => [Some ("Matched Keywords: " +:+ String.concat ", " kws)]
  end.

(** The example of the specification: 82.456 with two keywords. *)
Definition scored_result : ProcessedResult :=
  mkResult true "I built a python api"
    (mkAnalysis (of_Z 5) (of_Z 0) (of_Z 0))
    (Some (mkScore (of_decimal 82456 3) ["python"; "api"]))
    ["Good job"].

(** The state that a trace leads to. *)
Definition after (s : State) (tr : list Event) : State :=
  match run s tr with
  | Some s' => s'
  | None => s
  end.

(** The state in which the second upload is in flight. *)
Definition uploading_state : State :=
  Eval vm_compute in after init second_upload_trace.

(** The same state after one more click on the start button. *)
Definition requesting_state : State :=
  Eval vm_compute in after uploading_state [Click].

Definition session_trace : list Event :=
  [DataAvailable 0 sample_chunk; Change "backend developer";
   DataAvailable 0 (mkBlob [Byte.x01; Byte.x02] "audio/webm");
   Click; DataAvailable 0 (mkBlob [Byte.x03] "audio/webm")].

(** The states of one session: microphone requested, granted, the
    events of [session_trace] delivered, the [stop] event fired. *)
Definition session_requested : State :=
  Eval vm_compute in after init [Click].
Definition session_started : State :=
  Eval vm_compute in after session_requested [MicGranted 0 1].
Definition session_stopping : State :=
  Eval vm_compute in after session_started session_trace.
Definition session_uploading : State :=
  Eval vm_compute in after session_stopping [Stopped 0].

(** *** Vocabulary of the further properties *)

(** The handlers keep the flag and the recorder in step. *)
Definition flag_matches_recorder (s : State) : Prop :=
  isRecording s = current_is_recording s.

Definition is_live (t : TrackState) : bool :=
  match t with live => true | ended => false end.

Definition is_ended (t : TrackState) : bool :=
  match t with live => false | ended => true end.

(** A recorder and its stream agree: a recorder that records has all its
    tracks live, one that is inactive has released them all, and none is
    paused. *)
Definition stream_agrees (m : MediaRecorder) : bool :=
  match rec_state m with
  | recording => forallb is_live (rec_stream m)
  | inactive => forallb is_ended (rec_stream m)
  | paused => false
  end.

(** An upload as [sendAudioToServer] builds it. *)
Definition is_upload (req : Request) : Prop :=
  exists (b : Blob) (jd : string),
    req = upload_request b jd /\ blob_type b = "audio/wav".

(** The events that reset the chunk buffer. *)
Definition is_start (ev : Event) : bool :=
  match ev with
  | MicGranted _ _ => true
  | _ => false
  end.

(** The chunks delivered in a trace, by any recorder, in order. *)
Fixpoint delivered (tr : list Event) : list Blob :=
  match tr with
  | [] => []
  | DataAvailable _ data :: tr' => data :: delivered tr'
  | _ :: tr' => delivered tr'
  end.

(** The events that bring a parsed response body. *)
Definition is_answer (ev : Event) : bool :=
  match ev with
  | Settled _ (Body _ _) => true
  | _ => false
  end.

(** The value of the job description field after the edits of a trace. *)
Fixpoint last_change (tr : list Event) (v : string) : string :=
  match tr with
  | [] => v
  | Change v' :: tr' => last_change tr' v'
  | _ :: tr' => last_change tr' v
  end.

(** The section headings of a tree: the contents of its [h6] lines. *)
Definition headings (e : Element) : list (list Child) :=
  flat_map (fun x => match x with
                     | Typography (Some v) cs =>
                         if String.eqb v "h6" then [cs] else []
                     | _ => []
                     end) (elements e).

(** The progress indicators of a tree. *)
Definition progress_indicators (e : Element) : list Element :=
  List.filter (fun x => match x with CircularProgress => true | _ => false end)
    (elements e).

(** *** States and traces of the examples *)

(** The state after [restart_trace]: the first recorder stopped, the
    second recording. *)
Definition restarted_state : State :=
  Eval vm_compute in after init restart_trace.

(** A session stopped by hand at 5 seconds, and nothing since: at 30
    seconds its timer is due and the button shows "start". *)
Definition idle_due_state : State :=
  Eval vm_compute in
    after init [Click; MicGranted 0 1; Elapse 5000; Click;
                DataAvailable 0 sample_chunk; Stopped 0; Elapse 25000].

(** A session requested with one job description in the field, which
    is edited while the session records. *)
Definition closure_requested : State :=
  Eval vm_compute in after init [Change "backend developer"; Click].
Definition closure_started : State :=
  Eval vm_compute in after closure_requested [MicGranted 0 1].
Definition closure_trace : list Event :=
  [Change "frontend developer"; DataAvailable 0 sample_chunk; Click].
Definition closure_stopping : State :=
  Eval vm_compute in after closure_started closure_trace.
Definition closure_uploading : State :=
  Eval vm_compute in after closure_stopping [Stopped 0].

(** The state after [double_start_trace], and what follows it: chunks
    from both recorders, a stop of the second, and a third session. *)
Definition doubled_state : State :=
  Eval vm_compute in after init double_start_trace.
Definition doubled_trace : list Event :=
  [DataAvailable 0 sample_chunk; DataAvailable 1 (mkBlob [Byte.x01] "audio/webm");
   Click; DataAvailable 0 (mkBlob [Byte.x02] "audio/webm");
   DataAvailable 1 (mkBlob [Byte.x03] "audio/webm"); Stopped 1].
Definition doubled_later : State :=
  Eval vm_compute in after doubled_state doubled_trace.
Definition third_session_trace : list Event :=
  doubled_trace ++ [Click; MicGranted 0 1; Elapse 30000; Timeout 0; Timeout 0;
                    Timeout 0; Stopped 2].
Definition third_session_state : State :=
  Eval vm_compute in after doubled_state third_session_trace.

(** From [uploading_state]: the upload fails and another session is
    recorded and stopped. *)
Definition failed_then_recorded_trace : list Event :=
  [Settled 0 (NetworkError "TypeError: Failed to fetch");
   Click; MicGranted 0 1; DataAvailable 2 sample_chunk; Click; Stopped 2;
   Settled 0 (BodyNotJson 502 "SyntaxError")].
Definition failed_then_recorded_state : State :=
  Eval vm_compute in after uploading_state failed_then_recorded_trace.

(** Two uploads in flight: the sessions of [second_upload_trace] with no
    answer to the first. *)
Definition two_uploads_state : State :=
  Eval vm_compute in
    after init [Click; MicGranted 0 1; Click; DataAvailable 0 sample_chunk; Stopped 0;
                Click; MicGranted 0 1; Click; DataAvailable 1 sample_chunk; Stopped 1].

(** * Properties *)

(** ** Lemmas shared by the proofs *)

Lemma alter_lookup_state (f : MediaRecorder -> MediaRecorder)
    (l : list MediaRecorder) (r k : nat) :
  (forall m, rec_state (f m) = rec_state m) ->
  rec_state <$> (alter f r l !! k) = rec_state <$> (l !! k).
Proof.
  intros Hf. destruct (decide (r = k)) as [->|Hne].
  - rewrite list_lookup_alter_eq. destruct (l !! k); simpl; [now rewrite Hf|easy].
  - now rewrite list_lookup_alter_ne.
Qed.

Lemma run_app (tr1 tr2 : list Event) (s : State) :
  run s (tr1 ++ tr2) =
  match run s tr1 with
  | Some s' => run s' tr2
  | None => None
  end.
Proof.
  revert s. induction tr1 as [|ev tr1 IH]; intros s; simpl; [easy|].
  destruct (step s ev); [apply IH|easy].
Qed.

(** ** The uploader *)

(** C2. When the request of an upload in flight fails (the fetch rejects),
    the user gets the alert, the result on display stays what it was, and
    [loading] is cleared. *)
Theorem upload_network_failure (s : State) (i : nat) (req : Request) (err : string) :
  fetches s !! i = Some req ->
  exists s',
    step s (Settled i (NetworkError err)) = Some s'
    /\ alerts s' = alerts s ++ [upload_failed_alert]
    /\ result s' = result s
    /\ loading s' = false.
Proof.
  intros Hreq. simpl. rewrite Hreq. eexists. split; [reflexivity|].
  now cbn.
Qed.

(** C6. When an upload in flight gets a response whose body parses, then
    whatever the HTTP status is, the parsed body becomes the result (the
    old result plays no part) and [loading] is cleared. *)
Theorem upload_response_replaces_result (s : State) (i : nat) (req : Request)
    (status : Z) (data : option ProcessedResult) :
  fetches s !! i = Some req ->
  exists s',
    step s (Settled i (Body status data)) = Some s'
    /\ result s' = data
    /\ loading s' = false
    /\ alerts s' = alerts s.
Proof.
  intros Hreq. simpl. rewrite Hreq. eexists. split; [reflexivity|].
  now cbn.
Qed.

(** C9. When an upload in flight gets a response whose body is not JSON,
    the component ends in the very state that a failed request with the
    same error leaves: alert given, result untouched, [loading] cleared. *)
Theorem upload_bad_json_is_failure (s : State) (i : nat) (req : Request)
    (status : Z) (err : string) :
  fetches s !! i = Some req ->
  exists s',
    step s (Settled i (BodyNotJson status err)) = Some s'
    /\ step s (Settled i (NetworkError err)) = Some s'
    /\ alerts s' = alerts s ++ [upload_failed_alert]
    /\ result s' = result s
    /\ loading s' = false.
Proof.
  intros Hreq. simpl. rewrite Hreq. eexists. split; [reflexivity|].
  split; [reflexivity|]. now cbn.
Qed.

(** ** The recorder *)

(** C5. When a pending request for the microphone is refused, the user
    gets the alert and nothing else moves: [isRecording] keeps its value
    (false stays false), no buffer and no recorder is created, and result,
    [loading], job description, buffered chunks, timers and uploads are as
    before. *)
Theorem microphone_denied_frame (s : State) (i : nat) (jd err : string) :
  micRequests s !! i = Some jd ->
  exists s',
    step s (MicDenied i err) = Some s'
    /\ alerts s' = alerts s ++ [microphone_alert]
    /\ isRecording s' = isRecording s
    /\ (isRecording s = false -> isRecording s' = false)
    /\ chunksRef s' = chunksRef s
    /\ mediaRecorderRef s' = mediaRecorderRef s
    /\ recorders s' = recorders s
    /\ result s' = result s
    /\ loading s' = loading s
    /\ jobDescription s' = jobDescription s
    /\ timers s' = timers s
    /\ fetches s' = fetches s.
Proof.
  intros Hreq. simpl. rewrite Hreq. eexists. split; [reflexivity|].
  cbn. repeat split; auto.
Qed.

(** X4. A click on the start button followed by the refusal of that request
    leaves the state as it was before the click, but for the alert and
    the console line. *)
Lemma start_denied_roundtrip (s : State) (err : string) :
  isRecording s = false ->
  run s [Click; MicDenied (length (micRequests s)) err]
  = Some (startRecording_catch err s).
Proof.
  intros Hrec. simpl. unfold onClick. rewrite Hrec. cbn.
  rewrite lookup_app_r by lia. rewrite Nat.sub_diag. cbn.
  replace (delete (length (micRequests s)) (micRequests s ++ [jobDescription s]))
    with (micRequests s).
  - now destruct s.
  - clear. induction (micRequests s) as [|x l IH]; simpl; [easy|].
    now rewrite <- IH.
Qed.

(** [stopRecording] touches a recorder only through [rec_state],
    [rec_stream] and [stop_queued], and the state only through
    [recorders] and [isRecording]. *)
Lemma stopRecording_unfold (s : State) :
  stopRecording s = s \/
  exists r,
    mediaRecorderRef s = Some r /\ current_is_recording s = true /\
    stopRecording s =
    set_isRecording false
      (set_recorders
         (alter stop_tracks r (alter MediaRecorder_stop r (recorders s))) s).
Proof.
  unfold stopRecording. destruct (current_is_recording s) eqn:Hc; [|now left].
  destruct (mediaRecorderRef s) as [r|] eqn:Hr; [|now left].
  right. exists r. repeat split. 
Qed.

Lemma stopRecording_not_recording (s : State) :
  current_is_recording (stopRecording s) = false.
Proof.
  unfold stopRecording. destruct (current_is_recording s) eqn:Hc; [|exact Hc].
  destruct (mediaRecorderRef s) as [r|] eqn:Hr.
  - unfold current_is_recording. cbn. rewrite Hr.
    rewrite !list_lookup_alter_eq. now destruct (recorders s !! r).
  - unfold current_is_recording in Hc. now rewrite Hr in Hc.
Qed.

Lemma current_is_recording_ext (s s' : State) :
  mediaRecorderRef s' = mediaRecorderRef s ->
  (forall k, rec_state <$> (recorders s' !! k) = rec_state <$> (recorders s !! k)) ->
  current_is_recording s' = current_is_recording s.
Proof.
  intros Href Hrec. unfold current_is_recording. rewrite Href.
  destruct (mediaRecorderRef s) as [r|]; [|easy].
  specialize (Hrec r).
  destruct (recorders s' !! r), (recorders s !! r); simpl in Hrec; congruence.
Qed.

Lemma step_flag_covers_recorder (s s' : State) (ev : Event) :
  flag_covers_recorder s -> step s ev = Some s' -> flag_covers_recorder s'.
Proof.
  unfold flag_covers_recorder. intros Inv Hstep.
  assert (Hstop : forall u, current_is_recording (stopRecording u) = false)
    by apply stopRecording_not_recording.
  destruct ev; simpl in Hstep.
  - (* Click *)
    injection Hstep as <-. unfold onClick.
    destruct (isRecording s) eqn:Hrec; [intros _; apply Hstop|].
    intros _. now apply Inv.
  - injection Hstep as <-. exact Inv.
  - destruct (micRequests s !! i); [|easy]. injection Hstep as <-.
    cbn. easy.
  - destruct (micRequests s !! i); [|easy]. injection Hstep as <-. exact Inv.
  - destruct (recorders s !! r); [|easy].
    destruct (_ || _); [|easy]. injection Hstep as <-. exact Inv.
  - destruct (recorders s !! r) as [m|]; [|easy].
    destruct (stop_queued m); [|easy]. injection Hstep as <-.
    cbn. intros Hrec. rewrite <- (Inv Hrec).
    apply current_is_recording_ext; [easy|].
    intros k. cbn. now apply alter_lookup_state.
  - destruct (fetches s !! i); [|easy]. injection Hstep as <-.
    destruct o; exact Inv.
  - destruct (_ && _); [|easy]. injection Hstep as <-. exact Inv.
  - destruct (timers s !! i) as [t|]; [|easy].
    destruct (t <=? clock s); [|easy]. injection Hstep as <-.
    unfold on_timeout. intros Hrec.
    destruct (current_is_recording _) eqn:Hc; [apply Hstop|exact Hc].
Qed.

Lemma run_flag_covers_recorder (tr : list Event) (s s' : State) :
  flag_covers_recorder s -> run s tr = Some s' -> flag_covers_recorder s'.
Proof.
  revert s. induction tr as [|ev tr IH]; intros s Inv Hrun; simpl in Hrun.
  - now injection Hrun as <-.
  - destruct (step s ev) as [s1|] eqn:Hstep; [|easy].
    eapply IH; [|exact Hrun]. eapply step_flag_covers_recorder; eauto.
Qed.

(** C10. [stopRecording] changes nothing but [isRecording] and the
    recorder objects: result, [loading], job description and the buffered
    chunks are as before, and so are the reference to the recorder, the
    pending requests, timers, uploads, alerts and console.  When the
    recorder is not recording the state is unchanged; in a reachable state
    that is the case whenever [isRecording] is false. *)
Theorem stopRecording_frame (s : State) :
  (result (stopRecording s) = result s
   /\ loading (stopRecording s) = loading s
   /\ jobDescription (stopRecording s) = jobDescription s
   /\ chunksRef (stopRecording s) = chunksRef s
   /\ mediaRecorderRef (stopRecording s) = mediaRecorderRef s
   /\ micRequests (stopRecording s) = micRequests s
   /\ timers (stopRecording s) = timers s
   /\ clock (stopRecording s) = clock s
   /\ fetches (stopRecording s) = fetches s
   /\ alerts (stopRecording s) = alerts s
   /\ console (stopRecording s) = console s)
  /\ (current_is_recording s = false -> stopRecording s = s)
  /\ (reachable s -> isRecording s = false -> stopRecording s = s).
Proof.
  split; [|split].
  - destruct (stopRecording_unfold s) as [->|(r & _ & _ & ->)]; cbn; repeat split.
  - intros Hc. unfold stopRecording. now rewrite Hc.
  - intros [tr Hrun] Hrec. unfold stopRecording.
    rewrite (run_flag_covers_recorder tr init s); [easy| |exact Hrun|exact Hrec].
    intros _. reflexivity.
Qed.

(** What a call of [stopRecording] that does stop the recorder leaves:
    the recorder is inactive with its [stop] event queued, every track of
    its stream has ended, and [isRecording] is false. *)
Lemma stopRecording_stops (s : State) (r : nat) (m : MediaRecorder) :
  mediaRecorderRef s = Some r ->
  recorders s !! r = Some m ->
  rec_state m = recording ->
  isRecording (stopRecording s) = false
  /\ recorders (stopRecording s) !! r
     = Some (mkRecorder inactive (List.map (fun _ => ended) (rec_stream m)) true
               (captured_jobDescription m)).
Proof.
  intros Hr Hm Hst. unfold stopRecording, current_is_recording.
  rewrite Hr, Hm, Hst. cbn. split; [easy|].
  rewrite !list_lookup_alter_eq, Hm. reflexivity.
Qed.

(** ** One recording session *)

Lemma startRecording_granted_state (jd : string) (stream : list TrackState)
    (s : State) :
  startRecording_granted jd stream s =
  mkState true (jobDescription s) (loading s) (result s)
    (Some (length (recorders s))) []
    (recorders s ++ [mkRecorder recording stream false jd])
    (micRequests s) (timers s ++ [clock s + 30000]) (clock s)
    (fetches s) (alerts s) (console s).
Proof.
  unfold startRecording_granted. cbn. f_equal.
  rewrite <- (Nat.add_0_r (length (recorders s))) at 1.
  now rewrite alter_app_r.
Qed.

Lemma step_chunksRef (r : nat) (s s' : State) (ev : Event) :
  in_session r ev = true ->
  step s ev = Some s' ->
  chunksRef s' = chunksRef s ++ delivered_by r [ev].
Proof.
  intros Hin Hstep.
  assert (Hstop : forall u, chunksRef (stopRecording u) = chunksRef u).
  { intros u. destruct (stopRecording_unfold u) as [->|(k & _ & _ & ->)]; easy. }
  destruct ev; simpl in Hin, Hstep; try discriminate Hin;
    simpl; rewrite ?Hin, ?app_nil_r.
  - injection Hstep as <-. unfold onClick.
    destruct (isRecording s); [apply Hstop|easy].
  - now injection Hstep as <-.
  - destruct (micRequests s !! i); [|easy]. now injection Hstep as <-.
  - destruct (recorders s !! r0); [|easy].
    destruct (_ || _); [|easy]. now injection Hstep as <-.
  - destruct (recorders s !! r0) as [m|]; [|easy].
    destruct (stop_queued m); [|easy]. now injection Hstep as <-.
  - destruct (fetches s !! i); [|easy]. injection Hstep as <-. now destruct o.
  - destruct (_ && _); [|easy]. now injection Hstep as <-.
  - destruct (timers s !! i) as [t|]; [|easy].
    destruct (t <=? clock s); [|easy]. injection Hstep as <-.
    unfold on_timeout. destruct (current_is_recording _); [now rewrite Hstop|easy].
Qed.

Lemma run_chunksRef (r : nat) (tr : list Event) (s s' : State) :
  forallb (in_session r) tr = true ->
  run s tr = Some s' ->
  chunksRef s' = chunksRef s ++ delivered_by r tr.
Proof.
  revert s. induction tr as [|ev tr IH]; intros s Hin Hrun; simpl in Hin, Hrun.
  - injection Hrun as <-. simpl. now rewrite app_nil_r.
  - apply andb_prop in Hin as [Hev Htr].
    destruct (step s ev) as [s1|] eqn:Hstep; [|easy].
    rewrite (IH s1 Htr Hrun), (step_chunksRef r s s1 ev Hev Hstep).
    rewrite <- app_assoc. f_equal.
    destruct ev; simpl in *; try easy. now rewrite Hev.
Qed.

(** C1. Take a session from the moment its recorder is started (the
    buffer is reset there) to the [stop] event of that recorder, with any
    events in between that belong to no other session.  The [stop]
    listener then hands exactly one new request to the uploader, whose
    [audio] part is the blob made of the chunks that the recorder
    delivered, in the order of delivery: its bytes are the concatenation
    of theirs.  [loading] is set. *)
Theorem session_blob_is_concatenation
    (s s1 s2 s3 : State) (i tracks : nat) (tr : list Event) :
  step s (MicGranted i tracks) = Some s1 ->
  forallb (in_session (length (recorders s))) tr = true ->
  run s1 tr = Some s2 ->
  step s2 (Stopped (length (recorders s))) = Some s3 ->
  let chunks := delivered_by (length (recorders s)) tr in
  exists (audioBlob : Blob) (jd : string),
    fetches s3 = fetches s2 ++ [upload_request audioBlob jd]
    /\ audioBlob = new_Blob chunks "audio/wav"
    /\ blob_bytes audioBlob = List.concat (List.map blob_bytes chunks)
    /\ loading s3 = true.
Proof.
  intros Hgrant Hin Hrun Hstop chunks.
  assert (Hbuf : chunksRef s1 = []).
  { simpl in Hgrant. destruct (micRequests s !! i); [|easy].
    injection Hgrant as <-. now rewrite startRecording_granted_state. }
  pose proof (run_chunksRef _ tr s1 s2 Hin Hrun) as Hchunks.
  rewrite Hbuf in Hchunks. simpl in Hchunks. fold chunks in Hchunks.
  simpl in Hstop.
  destruct (recorders s2 !! length (recorders s)) as [m|]; [|easy].
  destruct (stop_queued m); [|easy]. injection Hstop as <-.
  exists (new_Blob chunks "audio/wav"), (captured_jobDescription m).
  cbn. rewrite Hchunks. easy.
Qed.

(** X3. A session does run: from any state with a pending request for the
    microphone, granting it, delivering any chunks, clicking the button
    and firing the [stop] event is a run of the component, and it uploads
    the concatenation of the chunks together with the job description
    that was in the field when recording was requested. *)
Lemma session_runs (s : State) (i tracks : nat) (jd : string) (cs : list Blob) :
  micRequests s !! i = Some jd ->
  let r := length (recorders s) in
  exists s3,
    run s (MicGranted i tracks :: List.map (DataAvailable r) cs ++ [Click; Stopped r])
    = Some s3
    /\ fetches s3 = fetches s ++ [upload_request (new_Blob cs "audio/wav") jd]
    /\ isRecording s3 = false.
Proof.
  intros Hreq r. simpl. rewrite Hreq. rewrite startRecording_granted_state. cbn.
  set (m := mkRecorder recording (repeat live tracks) false jd).
  assert (Hdeliver : forall cs buf u,
    recorders u = recorders s ++ [m] ->
    chunksRef u = buf ->
    exists u', run u (List.map (DataAvailable r) cs) = Some u'
      /\ u' = set_chunksRef (buf ++ cs) u).
  { clear. induction cs as [|c cs IH]; intros buf u Hrec Hbuf.
    - exists u. simpl. split; [easy|]. rewrite app_nil_r, <- Hbuf. now destruct u.
    - simpl. rewrite Hrec. unfold r at 1.
      rewrite lookup_app_r by lia. rewrite Nat.sub_diag. simpl.
      destruct (IH (buf ++ [c]) (on_dataavailable c u)) as (u' & Hrun & ->).
      + exact Hrec.
      + unfold on_dataavailable. cbn. now rewrite Hbuf.
      + exists (set_chunksRef (buf ++ c :: cs) u). split.
        * rewrite Hrun. f_equal. unfold on_dataavailable, set_chunksRef. cbn.
          now rewrite <- app_assoc.
        * reflexivity. }
  match goal with |- context [run ?u (_ ++ _)] =>
    destruct (Hdeliver cs [] u) as (u' & Hrun & ->); [reflexivity|reflexivity|]
  end.
  rewrite run_app, Hrun. simpl.
  unfold onClick, stopRecording, current_is_recording. cbn.
  fold r. rewrite lookup_app_r by (unfold r; lia).
  replace (r - length (recorders s))%nat with 0%nat by (unfold r; lia). cbn.
  rewrite !list_lookup_alter_eq.
  rewrite lookup_app_r by (unfold r; lia).
  replace (r - length (recorders s))%nat with 0%nat by (unfold r; lia). cbn.
  eexists. split; [reflexivity|]. cbn. easy.
Qed.

(** ** The deadline timer *)

(** Granting the microphone arms a timer for 30 seconds later. *)
Lemma granted_arms_timer (s s1 : State) (i tracks : nat) :
  step s (MicGranted i tracks) = Some s1 ->
  timers s1 = timers s ++ [clock s + 30000]
  /\ mediaRecorderRef s1 = Some (length (recorders s))
  /\ isRecording s1 = true.
Proof.
  simpl. destruct (micRequests s !! i); [|easy]. intros [= <-].
  now rewrite startRecording_granted_state.
Qed.

(** Time does not pass a deadline: while a timer is armed, the clock is
    never moved beyond its deadline. *)
Lemma elapse_respects_deadlines (s s' : State) (dt t : Z) :
  step s (Elapse dt) = Some s' ->
  In t (timers s) ->
  clock s' <= t.
Proof.
  simpl. destruct (0 <=? dt); simpl; [|easy].
  destruct (forallb _ _) eqn:Hall; [|easy]. intros [= <-] Hin.
  rewrite forallb_forall in Hall. specialize (Hall t Hin). cbn. lia.
Qed.

(** A timer that fires while the current recorder is recording stops it:
    the recorder becomes inactive with its [stop] event queued, its tracks
    end, and [isRecording] becomes false. *)
Lemma timeout_stops_recording (s : State) (i r : nat) (t : Z) (m : MediaRecorder) :
  timers s !! i = Some t ->
  t <= clock s ->
  mediaRecorderRef s = Some r ->
  recorders s !! r = Some m ->
  rec_state m = recording ->
  exists s',
    step s (Timeout i) = Some s'
    /\ isRecording s' = false
    /\ recorders s' !! r
       = Some (mkRecorder inactive (List.map (fun _ => ended) (rec_stream m)) true
                 (captured_jobDescription m)).
Proof.
  intros Ht Hle Hr Hm Hst. simpl. rewrite Ht.
  destruct (Z.leb_spec t (clock s)); [|lia].
  eexists. split; [reflexivity|].
  unfold on_timeout.
  set (u := set_timers _ s).
  assert (Hc : current_is_recording u = true).
  { unfold current_is_recording. cbn. now rewrite Hr, Hm, Hst. }
  rewrite Hc. apply (stopRecording_stops u r m); easy.
Qed.

(** C3. The timer of a session that was stopped by hand stays armed, and
    its callback looks at whichever recorder is current when it fires.
    Here the first session is stopped at 5 s and a second one is started
    at 10 s; at 30 s the timer of the first session fires and stops the
    second session, which is 20 s old and whose own deadline is at 40 s. *)
Theorem stale_timer_stops_next_session :
  exists s s',
    run init restart_trace = Some s
    /\ clock s = 30000
    /\ timers s = [30000; 40000]
    /\ isRecording s = true
    /\ mediaRecorderRef s = Some 1%nat
    /\ rec_state <$> (recorders s !! 0%nat) = Some inactive
    /\ rec_state <$> (recorders s !! 1%nat) = Some recording
    /\ step s (Timeout 0) = Some s'
    /\ clock s' = 30000
    /\ timers s' = [40000]
    /\ isRecording s' = false
    /\ recorders s' !! 1%nat = Some (mkRecorder inactive [ended] true "").
Proof.
  do 2 eexists. split; [vm_compute; reflexivity|].
  vm_compute. repeat split; reflexivity.
Qed.

(** ** Sessions at the same time *)

(** C8. [isRecording] becomes true only when the microphone has been
    granted, so the button still starts a recording while a request is
    pending.  After two such clicks the component has two recorders
    capturing on two live streams.  Only the second is reachable through
    [mediaRecorderRef]: a click on stop ends that one, and the first
    keeps recording and holding the microphone. *)
Theorem double_start_two_sessions :
  exists s s',
    run init double_start_trace = Some s
    /\ length (capturing s) = 2%nat
    /\ length (holding_microphone s) = 2%nat
    /\ mediaRecorderRef s = Some 1%nat
    /\ run s [Click; Stopped 1] = Some s'
    /\ isRecording s' = false
    /\ capturing s' = [mkRecorder recording [live] false ""]
    /\ holding_microphone s' = [mkRecorder recording [live] false ""].
Proof.
  do 2 eexists. split; [vm_compute; reflexivity|].
  vm_compute. repeat split; reflexivity.
Qed.

(** ** The renderer *)

Lemma fragments_Node (tag : Tag) (cs : list Element) :
  fragments (Node tag cs) =
  match tag with Fragment => [cs] | _ => [] end ++ flat_map fragments cs.
Proof.
  unfold fragments at 1. simpl elements. simpl flat_map.
  replace (flat_map _ (flat_map elements cs)) with (flat_map fragments cs).
  - now destruct tag.
  - induction cs as [|c cs IH]; simpl; [easy|].
    now rewrite flat_map_app, <- IH.
Qed.

Lemma typographies_Node (tag : Tag) (cs : list Element) :
  typographies (Node tag cs) = flat_map typographies cs.
Proof.
  unfold typographies at 1. simpl elements. simpl flat_map.
  induction cs as [|c cs IH]; simpl; [easy|].
  now rewrite flat_map_app, <- IH.
Qed.

Lemma fragments_feedback_paper (fb : list string) :
  fragments (feedback_paper fb) = [].
Proof.
  unfold feedback_paper. rewrite fragments_Node.
  induction fb as [|f fb IH]; [reflexivity|exact IH].
Qed.

Lemma fragments_score_paper (sc : ScoreResult) :
  fragments (score_paper sc) = [].
Proof.
  unfold score_paper. rewrite fragments_Node.
  now destruct (0 <? length (matched_keywords sc))%nat.
Qed.

(** The result fragment has no fragment inside it. *)
Lemma fragments_result_view (r : ProcessedResult) :
  flat_map fragments (result_view r) = [].
Proof.
  unfold result_view. rewrite !flat_map_app. cbn [flat_map app].
  rewrite fragments_feedback_paper.
  destruct (score r) as [sc|]; cbn [flat_map app];
    rewrite ?fragments_score_paper; reflexivity.
Qed.

(** What [render] shows of the result: one fragment when there is a
    result, none otherwise, whatever [loading] is. *)
Lemma fragments_render (s : State) :
  fragments (render s) =
  match result s with
  | Some r => [result_view r]
  | None => []
  end.
Proof.
  unfold render. rewrite fragments_Node, !flat_map_app.
  destruct (loading s), (result s) as [r|]; cbn [when flat_map app];
    rewrite ?fragments_Node, ?fragments_result_view; reflexivity.
Qed.

(** C4, as stated, fails.  While the second upload is in flight,
    [loading] is true and the result of the first submission is on
    display, transcript and feedback included. *)
Lemma loading_keeps_previous_result :
  exists s,
    run init second_upload_trace = Some s
    /\ loading s = true
    /\ result s = Some sample_result
    /\ fragments (render s) = [result_view sample_result]
    /\ In [Str "hello world"] (typographies (render s))
    /\ In [Str "Good job"] (typographies (render s)).
Proof.
  eexists. split; [vm_compute; reflexivity|].
  vm_compute. repeat split; auto 20.
Qed.

(** C4, amended. While [loading] is true the output shows the progress
    indicator and the processing message; the result is shown exactly
    when there is one in the state, so a result from an earlier
    submission stays on display during the next upload. *)
Theorem loading_view (s : State) :
  loading s = true ->
  In CircularProgress (elements (render s))
  /\ In [Str "Processing your response..."] (typographies (render s))
  /\ fragments (render s) =
     match result s with
     | Some r => [result_view r]
     | None => []
     end.
Proof.
  intros Hl. split; [|split].
  - unfold render. rewrite Hl. cbn [elements]. right.
    apply in_flat_map. exists loading_box. split.
    + rewrite !in_app_iff. right. left. now left.
    + simpl. auto.
  - unfold render. rewrite Hl, typographies_Node.
    apply in_flat_map. exists loading_box. split.
    + rewrite !in_app_iff. right. left. now left.
    + vm_compute. auto.
  - apply fragments_render.
Qed.

(** *** The relevance score *)

Lemma den_pos (e : Z) : 0 < den e.
Proof.
  unfold den. destruct (Z.leb_spec 0 e); [lia|].
  apply Z.pow_pos_nonneg; lia.
Qed.

Lemma num_pos (m : positive) (e : Z) : 0 < num m e.
Proof.
  unfold num. destruct (Z.leb_spec 0 e); [|lia].
  assert (0 < 2 ^ e) by (apply Z.pow_pos_nonneg; lia). nia.
Qed.

Lemma nearest_spec (nm dn : Z) :
  0 < dn -> 0 <= nm ->
  let n := nearest 1 nm dn in
  0 <= n /\ 20 * nm - dn < 2 * n * dn <= 20 * nm + dn.
Proof.
  intros Hdn Hnm n. unfold nearest in n. change (10 ^ Z.of_nat 1) with 10 in n.
  pose proof (Z.div_mod (2 * nm * 10 + dn) (2 * dn) ltac:(lia)) as Hdm.
  pose proof (Z.mod_pos_bound (2 * nm * 10 + dn) (2 * dn) ltac:(lia)) as Hb.
  fold n in Hdm. split; [|nia].
  apply Z.div_pos; lia.
Qed.

Lemma digit_length (n : Z) :
  0 <= n -> String.length (dec (n mod 10)) = 1%nat.
Proof.
  intros Hn. pose proof (Z.mod_pos_bound n 10 ltac:(lia)) as Hb.
  assert (Hd : n mod 10 = 0 \/ n mod 10 = 1 \/ n mod 10 = 2 \/ n mod 10 = 3
               \/ n mod 10 = 4 \/ n mod 10 = 5 \/ n mod 10 = 6 \/ n mod 10 = 7
               \/ n mod 10 = 8 \/ n mod 10 = 9) by lia.
  repeat destruct Hd as [-> | Hd]; try reflexivity. now rewrite Hd.
Qed.

Lemma pad_full (f : nat) (d : string) :
  String.length d = f -> pad f d = d.
Proof.
  intros <-. unfold pad. now rewrite Nat.sub_diag.
Qed.

Lemma fixed_one (n : Z) :
  0 <= n -> fixed 1 n = dec (n / 10) +:+ "." +:+ dec (n mod 10).
Proof.
  intros Hn. unfold fixed. change (10 ^ Z.of_nat 1) with 10.
  now rewrite pad_full by now apply digit_length.
Qed.

(** [toFixed(1)] on the numbers it prints in fixed notation: the sign, the
    integer part, a point and one digit, for the nearest number of
    tenths. *)
Lemma toFixed_one_decimal (x : number) :
  fixed_range x = true ->
  exists n,
    nearest_tenth x n
    /\ String.length (dec (n mod 10)) = 1%nat
    /\ toFixed 1 x = Str (sign_text x +:+ dec (n / 10) +:+ "." +:+ dec (n mod 10)).
Proof.
  intros Hr. destruct x as [sg|sg| |sg m e]; simpl in Hr; try discriminate Hr.
  - exists 0. repeat split.
  - pose proof (nearest_spec (num m e) (den e) (den_pos e)
                  ltac:(pose proof (num_pos m e); lia)) as [Hn Hnear].
    exists (nearest 1 (num m e) (den e)). split; [exact Hnear|].
    split; [now apply digit_length|].
    unfold toFixed. apply negb_true_iff in Hr. rewrite Hr.
    rewrite fixed_one by exact Hn. now destruct sg.
Qed.

Lemma append_empty_r (a : string) : a +:+ "" = a.
Proof.
  induction a as [|c a IH]; [reflexivity|].
  change (String c (a +:+ "") = String c a). now rewrite IH.
Qed.

Lemma text_two (a b : string) : text [Str a; Str b] = Some (a +:+ b).
Proof. cbn [text]. now rewrite append_empty_r. Qed.

Lemma element_in_elements (e : Element) : In e (elements e).
Proof. destruct e; now left. Qed.

(** C7. A result on display whose [score] is present shows the score
    block.  For a score value in the range that [toFixed] prints in fixed
    notation (finite, magnitude below [10^21]) the lines of the block are
    the heading, the value to the nearest tenth with one digit after the
    point and a percent sign, the caption, and then, exactly when
    [matched_keywords] is not empty, one line ["Matched Keywords: "]
    followed by the keywords joined by [", "]. *)
Theorem score_block_display (s : State) (r : ProcessedResult) (sc : ScoreResult) :
  result s = Some r ->
  score r = Some sc ->
  fixed_range (score_value sc) = true ->
  In (score_paper sc) (elements (render s))
  /\ exists n,
       nearest_tenth (score_value sc) n
       /\ String.length (dec (n mod 10)) = 1%nat
       /\ List.map text (typographies (score_paper sc)) =
          [Some "Job Relevance Analysis";
           Some ((sign_text (score_value sc) +:+ dec (n / 10) +:+ "."
                  +:+ dec (n mod 10)) +:+ "%");
           Some "Relevance Score"]
          ++ keyword_line (matched_keywords sc).
Proof.
  intros Hres Hsc Hrange. split.
  - unfold render. rewrite Hres. cbn [elements]. right.
    apply in_flat_map. exists (Node Fragment (result_view r)). split.
    + rewrite !in_app_iff. right. right. now left.
    + cbn [elements]. right. apply in_flat_map. exists (score_paper sc). split.
      * unfold result_view. rewrite Hsc, !in_app_iff. right. left. now left.
      * apply element_in_elements.
  - destruct (toFixed_one_decimal (score_value sc) Hrange) as (n & Hnear & Hlen & Hfix).
    exists n. split; [exact Hnear|]. split; [exact Hlen|].
    unfold score_paper. rewrite typographies_Node, Hfix.
    destruct (matched_keywords sc) as [|k kws]; [reflexivity|].
    cbn [length Nat.ltb Nat.leb when app flat_map]. unfold typographies.
    cbn [elements flat_map app List.map keyword_line].
    now rewrite !text_two.
Qed.

Example score_block_example :
  List.map text (typographies (score_paper (mkScore (of_decimal 82456 3) ["python"; "api"])))
  = [Some "Job Relevance Analysis"; Some "82.5%"; Some "Relevance Score";
     Some "Matched Keywords: python, api"].
Proof. vm_compute. reflexivity. Qed.

Example score_block_no_keywords :
  List.map text (typographies (score_paper (mkScore (of_decimal 82456 3) [])))
  = [Some "Job Relevance Analysis"; Some "82.5%"; Some "Relevance Score"].
Proof. vm_compute. reflexivity. Qed.

(** Outside the fixed range [toFixed] gives the number to the host's
    default conversion, as for an infinite score. *)
Example toFixed_infinity :
  toFixed 1 (S754_infinity false) = Num (S754_infinity false).
Proof. reflexivity. Qed.

(** ** Instances *)

(** C1 on a session of three chunks, with an edit of the job description
    and the click on stop in between. *)
Lemma session_blob_is_concatenation_witness :
  let s := session_requested in
  let s1 := session_started in
  let s2 := session_stopping in
  let s3 := session_uploading in
  step s (MicGranted 0 1) = Some s1
  /\ forallb (in_session 0) session_trace = true
  /\ run s1 session_trace = Some s2
  /\ step s2 (Stopped 0) = Some s3
  /\ exists (audioBlob : Blob) (jd : string),
       fetches s3 = fetches s2 ++ [upload_request audioBlob jd]
       /\ audioBlob
          = new_Blob [sample_chunk; mkBlob [Byte.x01; Byte.x02] "audio/webm";
                      mkBlob [Byte.x03] "audio/webm"] "audio/wav"
       /\ blob_bytes audioBlob
          = [Byte.x52; Byte.x49; Byte.x46; Byte.x46; Byte.x01; Byte.x02; Byte.x03]
       /\ loading s3 = true.
Proof.
  intros s s1 s2 s3.
  assert (H1 : step s (MicGranted 0 1) = Some s1) by reflexivity.
  assert (H2 : forallb (in_session 0) session_trace = true) by reflexivity.
  assert (H3 : run s1 session_trace = Some s2) by reflexivity.
  assert (H4 : step s2 (Stopped 0) = Some s3) by reflexivity.
  repeat (split; [assumption|]).
  exact (session_blob_is_concatenation s s1 s2 s3 0 1 session_trace H1 H2 H3 H4).
Defined.

(** C2 on the upload in flight of [uploading_state], which has a result
    on display. *)
Lemma upload_network_failure_witness :
  fetches uploading_state !! 0%nat = Some (upload_request (new_Blob [sample_chunk] "audio/wav") "")
  /\ exists s',
       step uploading_state (Settled 0 (NetworkError "TypeError: Failed to fetch")) = Some s'
       /\ alerts s' = alerts uploading_state ++ [upload_failed_alert]
       /\ result s' = result uploading_state
       /\ loading s' = false.
Proof.
  split; [reflexivity|].
  apply (upload_network_failure uploading_state 0
           (upload_request (new_Blob [sample_chunk] "audio/wav") "")).
  reflexivity.
Defined.

(** C6 on the same upload, answered with status 500 and a body. *)
Lemma upload_response_replaces_result_witness :
  fetches uploading_state !! 0%nat = Some (upload_request (new_Blob [sample_chunk] "audio/wav") "")
  /\ exists s',
       step uploading_state (Settled 0 (Body 500 (Some scored_result))) = Some s'
       /\ result s' = Some scored_result
       /\ loading s' = false
       /\ alerts s' = alerts uploading_state.
Proof.
  split; [reflexivity|].
  apply (upload_response_replaces_result uploading_state 0
           (upload_request (new_Blob [sample_chunk] "audio/wav") "")).
  reflexivity.
Defined.

(** C9 on the same upload, answered with status 502 and an HTML body. *)
Lemma upload_bad_json_is_failure_witness :
  fetches uploading_state !! 0%nat = Some (upload_request (new_Blob [sample_chunk] "audio/wav") "")
  /\ exists s',
       step uploading_state (Settled 0 (BodyNotJson 502 "SyntaxError: Unexpected token <")) = Some s'
       /\ step uploading_state (Settled 0 (NetworkError "SyntaxError: Unexpected token <")) = Some s'
       /\ alerts s' = alerts uploading_state ++ [upload_failed_alert]
       /\ result s' = result uploading_state
       /\ loading s' = false.
Proof.
  split; [reflexivity|].
  apply (upload_bad_json_is_failure uploading_state 0
           (upload_request (new_Blob [sample_chunk] "audio/wav") "")).
  reflexivity.
Defined.

(** C5 on a request made while a result is on display and an upload is
    in flight. *)
Lemma microphone_denied_frame_witness :
  let s := requesting_state in
  micRequests s !! 0%nat = Some ""
  /\ exists s',
       step s (MicDenied 0 "NotAllowedError") = Some s'
       /\ alerts s' = alerts s ++ [microphone_alert]
       /\ isRecording s' = isRecording s
       /\ (isRecording s = false -> isRecording s' = false)
       /\ chunksRef s' = chunksRef s
       /\ mediaRecorderRef s' = mediaRecorderRef s
       /\ recorders s' = recorders s
       /\ result s' = result s
       /\ loading s' = loading s
       /\ jobDescription s' = jobDescription s
       /\ timers s' = timers s
       /\ fetches s' = fetches s.
Proof.
  intros s. split; [reflexivity|].
  apply (microphone_denied_frame s 0 ""). reflexivity.
Defined.

(** C10 on a reachable state in which nothing is recording. *)
Lemma stopRecording_frame_witness :
  current_is_recording uploading_state = false
  /\ reachable uploading_state
  /\ isRecording uploading_state = false
  /\ stopRecording uploading_state = uploading_state.
Proof.
  assert (Hc : current_is_recording uploading_state = false) by reflexivity.
  split; [exact Hc|]. split; [exists second_upload_trace; reflexivity|].
  split; [reflexivity|].
  exact (proj1 (proj2 (stopRecording_frame uploading_state)) Hc).
Defined.

(** C4, amended, on the state of the counterexample. *)
Lemma loading_view_witness :
  loading uploading_state = true
  /\ In CircularProgress (elements (render uploading_state))
  /\ In [Str "Processing your response..."] (typographies (render uploading_state))
  /\ fragments (render uploading_state) = [result_view sample_result].
Proof.
  assert (Hl : loading uploading_state = true) by reflexivity.
  split; [exact Hl|].
  exact (loading_view uploading_state Hl).
Defined.

(** C7 on the example of the specification. *)
Lemma score_block_display_witness :
  let sc := mkScore (of_decimal 82456 3) ["python"; "api"] in
  let s := set_result (Some scored_result) init in
  result s = Some scored_result
  /\ score scored_result = Some sc
  /\ fixed_range (score_value sc) = true
  /\ In (score_paper sc) (elements (render s))
  /\ exists n,
       nearest_tenth (score_value sc) n
       /\ String.length (dec (n mod 10)) = 1%nat
       /\ List.map text (typographies (score_paper sc)) =
          [Some "Job Relevance Analysis";
           Some ((sign_text (score_value sc) +:+ dec (n / 10) +:+ "."
                  +:+ dec (n mod 10)) +:+ "%");
           Some "Relevance Score"]
          ++ keyword_line (matched_keywords sc).
Proof.
  intros sc s.
  assert (H1 : result s = Some scored_result) by reflexivity.
  assert (H2 : score scored_result = Some sc) by reflexivity.
  assert (H3 : fixed_range (score_value sc) = true) by reflexivity.
  repeat (split; [assumption|]).
  exact (score_block_display s scored_result sc H1 H2 H3).
Defined.

(** * Further properties *)

(** Case analysis on an event that the host did deliver. *)
Ltac step_inv H :=
  match type of H with
  | step ?s ?ev = Some _ =>
      destruct ev; simpl in H;
      repeat match type of H with
        | context [match ?x with _ => _ end] =>
            destruct x eqn:?; try discriminate H
        end;
      injection H as <-
  end.

(** A property kept by every event holds along every run. *)
Lemma run_invariant (P : State -> Prop) :
  (forall s s' ev, P s -> step s ev = Some s' -> P s') ->
  forall tr s s', P s -> run s tr = Some s' -> P s'.
Proof.
  intros Hstep. induction tr as [|ev tr IH]; intros s s' Hs Hrun; simpl in Hrun.
  - now injection Hrun as <-.
  - destruct (step s ev) as [s1|] eqn:Hev; [|easy].
    apply (IH s1); [|exact Hrun]. eapply Hstep; eauto.
Qed.

Lemma stopRecording_isRecording (s : State) :
  isRecording (stopRecording s)
  = if current_is_recording s then false else isRecording s.
Proof.
  unfold stopRecording. destruct (current_is_recording s) eqn:Hc; [|easy].
  destruct (mediaRecorderRef s) eqn:Hr; [easy|].
  unfold current_is_recording in Hc. now rewrite Hr in Hc.
Qed.

Lemma step_flag_matches_recorder (s s' : State) (ev : Event) :
  flag_matches_recorder s -> step s ev = Some s' -> flag_matches_recorder s'.
Proof.
  unfold flag_matches_recorder. intros Inv Hstep.
  assert (Hstop : forall u, isRecording u = current_is_recording u ->
            isRecording (stopRecording u) = current_is_recording (stopRecording u)).
  { intros u Hu. rewrite stopRecording_isRecording, stopRecording_not_recording.
    rewrite <- Hu. now destruct (isRecording u). }
  step_inv Hstep; try exact Inv.
  - unfold onClick. destruct (isRecording s) eqn:Hrec.
    + apply Hstop. congruence.
    + change (isRecording s = current_is_recording s). congruence.
  - rewrite startRecording_granted_state. unfold current_is_recording. cbn.
    rewrite lookup_app_r by lia. now rewrite Nat.sub_diag.
  - cbn. rewrite Inv. symmetry. apply current_is_recording_ext; [easy|].
    intros k. cbn. now apply alter_lookup_state.
  - destruct o; exact Inv.
  - unfold on_timeout. destruct (current_is_recording _) eqn:Hc.
    + apply Hstop. change (isRecording s = current_is_recording s). congruence.
    + change (isRecording s = current_is_recording s). congruence.
Qed.

(** X6. In every reachable state the flag [isRecording], which picks the
    label and the action of the button, is true exactly when the recorder
    held by [mediaRecorderRef] is recording. *)
Theorem reachable_flag_matches_recorder (s : State) :
  reachable s -> isRecording s = current_is_recording s.
Proof.
  intros [tr Hrun].
  apply (run_invariant flag_matches_recorder step_flag_matches_recorder tr init s).
  - reflexivity.
  - exact Hrun.
Qed.

Lemma stopRecording_recorders (P : MediaRecorder -> Prop) (s : State) :
  (forall m, P m -> P (stop_tracks (MediaRecorder_stop m))) ->
  Forall P (recorders s) -> Forall P (recorders (stopRecording s)).
Proof.
  intros Hf Hall.
  destruct (stopRecording_unfold s) as [->|(r & _ & _ & ->)]; [exact Hall|].
  cbn. rewrite list_alter_alter_eq. apply Forall_alter; [exact Hall|].
  intros x _. apply Hf.
Qed.

Lemma forallb_repeat_live (n : nat) : forallb is_live (repeat live n) = true.
Proof. induction n; simpl; easy. Qed.

Lemma forallb_map_ended (l : list TrackState) :
  forallb is_ended (List.map (fun _ => ended) l) = true.
Proof. induction l; simpl; easy. Qed.

Lemma step_stream_agrees (s s' : State) (ev : Event) :
  Forall (fun m => stream_agrees m = true) (recorders s) ->
  step s ev = Some s' ->
  Forall (fun m => stream_agrees m = true) (recorders s').
Proof.
  intros Inv Hstep.
  assert (Hstop : forall u, Forall (fun m => stream_agrees m = true) (recorders u) ->
            Forall (fun m => stream_agrees m = true) (recorders (stopRecording u))).
  { intros u. apply stopRecording_recorders. intros m _.
    unfold stream_agrees. cbn. apply forallb_map_ended. }
  step_inv Hstep; try exact Inv.
  - unfold onClick. destruct (isRecording s); [now apply Hstop|exact Inv].
  - rewrite startRecording_granted_state. cbn.
    apply Forall_app. split; [exact Inv|].
    constructor; [|constructor]. apply forallb_repeat_live.
  - cbn. apply Forall_alter; [exact Inv|]. now intros [] _.
  - destruct o; exact Inv.
  - unfold on_timeout. destruct (current_is_recording _); [now apply Hstop|exact Inv].
Qed.

(** X7. In every reachable state each recorder agrees with its stream: the
    tracks of a recorder that records are all live, those of a recorder
    that has been stopped have all been stopped with it, so that no
    stopped recorder holds the microphone, and no recorder is paused. *)
Theorem reachable_streams_agree (s : State) (m : MediaRecorder) :
  reachable s ->
  In m (recorders s) ->
  match rec_state m with
  | recording => forallb is_live (rec_stream m) = true
  | inactive => forallb is_ended (rec_stream m) = true
  | paused => False
  end.
Proof.
  intros [tr Hrun] Hin.
  assert (Hall : Forall (fun m => stream_agrees m = true) (recorders s)).
  { apply (run_invariant
             (fun u => Forall (fun m => stream_agrees m = true) (recorders u))
             step_stream_agrees tr init s); [constructor|exact Hrun]. }
  rewrite Forall_forall in Hall. specialize (Hall m).
  unfold stream_agrees in Hall. destruct (rec_state m); try (apply Hall; now apply list_elem_of_In).
  assert (false = true) by (apply Hall; now apply list_elem_of_In). discriminate.
Qed.

Lemma stopRecording_loading_fetches (s : State) :
  loading (stopRecording s) = loading s /\ fetches (stopRecording s) = fetches s.
Proof.
  destruct (stopRecording_unfold s) as [->|(r & _ & _ & ->)]; easy.
Qed.

Lemma step_loading_has_fetch (s s' : State) (ev : Event) :
  (loading s = true -> fetches s <> []) ->
  step s ev = Some s' ->
  loading s' = true -> fetches s' <> [].
Proof.
  intros Inv Hstep.
  assert (Hstop : forall u, (loading u = true -> fetches u <> []) ->
            loading (stopRecording u) = true -> fetches (stopRecording u) <> []).
  { intros u Hu. destruct (stopRecording_loading_fetches u) as [-> ->]. exact Hu. }
  step_inv Hstep; try exact Inv.
  - unfold onClick. destruct (isRecording s); [now apply Hstop|exact Inv].
  - cbn. intros _. now destruct (fetches s).
  - destruct o; cbn; discriminate.
  - unfold on_timeout. destruct (current_is_recording _); [now apply Hstop|exact Inv].
Qed.

(** X14. In every reachable state, [loading] is true only while an upload is
    in flight: the progress indicator never stays on with no request
    outstanding. *)
Theorem reachable_loading_has_fetch (s : State) :
  reachable s -> loading s = true -> fetches s <> [].
Proof.
  intros [tr Hrun].
  apply (run_invariant (fun u => loading u = true -> fetches u <> [])
           step_loading_has_fetch tr init s); [discriminate|exact Hrun].
Qed.

Lemma step_fetches_are_uploads (s s' : State) (ev : Event) :
  Forall is_upload (fetches s) ->
  step s ev = Some s' ->
  Forall is_upload (fetches s').
Proof.
  intros Inv Hstep.
  assert (Hstop : forall u, fetches (stopRecording u) = fetches u)
    by (intros u; apply stopRecording_loading_fetches).
  step_inv Hstep; try exact Inv.
  - unfold onClick. destruct (isRecording s); [now rewrite Hstop|exact Inv].
  - cbn. apply Forall_app. split; [exact Inv|].
    constructor; [|constructor]. eexists _, _. split; reflexivity.
  - assert (Hdel : Forall is_upload (delete i (fetches s)))
      by now apply Forall_delete.
    destruct o; exact Hdel.
  - unfold on_timeout. destruct (current_is_recording _); [now rewrite Hstop|exact Inv].
Qed.

(** X15. Every request that the component has in flight is a POST to the fixed
    endpoint whose form has exactly the two fields [audio], a blob of type
    [audio/wav], and [job_description], in that order. *)
Theorem reachable_fetches_are_uploads (s : State) (req : Request) :
  reachable s ->
  In req (fetches s) ->
  exists (b : Blob) (jd : string),
    req = mkRequest "http://localhost:5000/api/process_audio" "POST"
            [("audio", File b); ("job_description", Field jd)]
    /\ blob_type b = "audio/wav".
Proof.
  intros [tr Hrun] Hin.
  assert (Hall : Forall is_upload (fetches s)).
  { apply (run_invariant (fun u => Forall is_upload (fetches u))
             step_fetches_are_uploads tr init s); [constructor|exact Hrun]. }
  rewrite Forall_forall in Hall. apply (Hall req). now apply list_elem_of_In.
Qed.

(** X9. Stopping twice is stopping once: a second call of [stopRecording], or
    a timer that fires after the recorder was stopped, finds the guard
    false and changes nothing more. *)
Theorem stopRecording_idempotent (s : State) :
  stopRecording (stopRecording s) = stopRecording s
  /\ on_timeout (stopRecording s) = stopRecording s.
Proof.
  pose proof (stopRecording_not_recording s) as Hc.
  split.
  - unfold stopRecording at 1. now rewrite Hc.
  - unfold on_timeout. now rewrite Hc.
Qed.

(** X10. A timer that fires while the button shows "start" does nothing: in a
    reachable state with [isRecording] false, the only effect of the
    timeout is that the timer is gone. *)
Theorem idle_timeout_is_harmless (s : State) (i : nat) (t : Z) :
  reachable s ->
  isRecording s = false ->
  timers s !! i = Some t ->
  t <= clock s ->
  step s (Timeout i) = Some (set_timers (delete i (timers s)) s).
Proof.
  intros Hreach Hrec Ht Hle. simpl. rewrite Ht.
  destruct (Z.leb_spec t (clock s)); [|lia].
  unfold on_timeout.
  replace (current_is_recording (set_timers (delete i (timers s)) s))
    with (current_is_recording s) by reflexivity.
  destruct Hreach as [tr Hrun].
  pose proof (run_invariant flag_matches_recorder step_flag_matches_recorder
                tr init s eq_refl Hrun) as Hflag.
  unfold flag_matches_recorder in Hflag. now rewrite <- Hflag, Hrec.
Qed.

(** *** The closure of a session *)

Lemma stopRecording_recorder_fields (s : State) (k : nat) (m : MediaRecorder) :
  recorders s !! k = Some m ->
  exists m', recorders (stopRecording s) !! k = Some m'
    /\ captured_jobDescription m' = captured_jobDescription m
    /\ (mediaRecorderRef s <> Some k ->
        rec_state m' = rec_state m /\ rec_stream m' = rec_stream m).
Proof.
  intros Hm.
  destruct (stopRecording_unfold s) as [->|(r & Hr & _ & ->)].
  - exists m. easy.
  - cbn. rewrite list_alter_alter_eq.
    destruct (decide (r = k)) as [->|Hne].
    + rewrite list_lookup_alter_eq, Hm. eexists. split; [reflexivity|].
      split; [reflexivity|]. intros Hk. now rewrite Hr in Hk.
    + rewrite list_lookup_alter_ne by exact Hne. exists m. easy.
Qed.

Lemma stopRecording_mediaRecorderRef (s : State) :
  mediaRecorderRef (stopRecording s) = mediaRecorderRef s.
Proof. destruct (stopRecording_unfold s) as [->|(r & _ & _ & ->)]; easy. Qed.

(** What an event leaves of a recorder object: it stays where it is, with
    the job description its listeners captured; and while
    [mediaRecorderRef] does not hold it, its state and its stream stay as
    they are and [mediaRecorderRef] does not come back to it. *)
Lemma step_recorder_fields (s s' : State) (ev : Event) (k : nat) (m : MediaRecorder) :
  recorders s !! k = Some m ->
  step s ev = Some s' ->
  exists m', recorders s' !! k = Some m'
    /\ captured_jobDescription m' = captured_jobDescription m
    /\ (mediaRecorderRef s <> Some k ->
        rec_state m' = rec_state m /\ rec_stream m' = rec_stream m
        /\ mediaRecorderRef s' <> Some k).
Proof.
  intros Hm Hstep.
  assert (Hsame : exists m', recorders s !! k = Some m'
            /\ captured_jobDescription m' = captured_jobDescription m
            /\ (mediaRecorderRef s <> Some k ->
                rec_state m' = rec_state m /\ rec_stream m' = rec_stream m
                /\ mediaRecorderRef s <> Some k)) by (exists m; easy).
  assert (Hstop : forall u, recorders u = recorders s ->
            mediaRecorderRef u = mediaRecorderRef s ->
            exists m', recorders (stopRecording u) !! k = Some m'
              /\ captured_jobDescription m' = captured_jobDescription m
              /\ (mediaRecorderRef s <> Some k ->
                  rec_state m' = rec_state m /\ rec_stream m' = rec_stream m
                  /\ mediaRecorderRef (stopRecording u) <> Some k)).
  { intros u Hrec Href.
    destruct (stopRecording_recorder_fields u k m) as (m' & Hm' & Hjd & Hrest);
      [now rewrite Hrec|].
    exists m'. split; [exact Hm'|]. split; [exact Hjd|].
    intros Hk. rewrite stopRecording_mediaRecorderRef, Href.
    rewrite Href in Hrest. destruct (Hrest Hk). easy. }
  step_inv Hstep; try exact Hsame.
  - unfold onClick. destruct (isRecording s); [now apply Hstop|exact Hsame].
  - rewrite startRecording_granted_state. cbn.
    pose proof (lookup_lt_Some _ _ _ Hm) as Hlt.
    rewrite lookup_app_l by exact Hlt. exists m.
    repeat split; try easy. intros [= Heq]. lia.
  - cbn. destruct (decide (r = k)) as [->|Hne].
    + rewrite list_lookup_alter_eq, Hm. eexists. split; [reflexivity|]. easy.
    + rewrite list_lookup_alter_ne by exact Hne. exists m. easy.
  - destruct o; exact Hsame.
  - unfold on_timeout. destruct (current_is_recording _); [now apply Hstop|exact Hsame].
Qed.

Lemma run_recorder_fields (tr : list Event) (s s' : State) (k : nat) (m : MediaRecorder) :
  recorders s !! k = Some m ->
  run s tr = Some s' ->
  exists m', recorders s' !! k = Some m'
    /\ captured_jobDescription m' = captured_jobDescription m
    /\ (mediaRecorderRef s <> Some k ->
        rec_state m' = rec_state m /\ rec_stream m' = rec_stream m
        /\ mediaRecorderRef s' <> Some k).
Proof.
  revert s m. induction tr as [|ev tr IH]; intros s m Hm Hrun; simpl in Hrun.
  - injection Hrun as <-. exists m. easy.
  - destruct (step s ev) as [s1|] eqn:Hstep; [|easy].
    destruct (step_recorder_fields s s1 ev k m Hm Hstep) as (m1 & Hm1 & Hjd1 & Hrest1).
    destruct (IH s1 m1 Hm1 Hrun) as (m' & Hm' & Hjd' & Hrest').
    exists m'. split; [exact Hm'|]. split; [congruence|].
    intros Hk. destruct (Hrest1 Hk) as (Hst1 & Hsm1 & Hk1).
    destruct (Hrest' Hk1) as (Hst' & Hsm' & Hk').
    repeat split; congruence.
Qed.

(** X5. The job description that a session uploads is the one that was in
    the field when its start button was clicked.  Whatever happens between
    the grant of that request and the [stop] event of its recorder, edits
    of the field included, the request handed to the uploader carries the
    text captured at the click, with the blob of the buffered chunks. *)
Theorem upload_carries_captured_jobDescription
    (s s1 s2 s3 : State) (i tracks : nat) (jd : string) (tr : list Event) :
  micRequests s !! i = Some jd ->
  step s (MicGranted i tracks) = Some s1 ->
  run s1 tr = Some s2 ->
  step s2 (Stopped (length (recorders s))) = Some s3 ->
  fetches s3
  = fetches s2 ++ [upload_request (new_Blob (chunksRef s2) "audio/wav") jd].
Proof.
  intros Hreq Hgrant Hrun Hstop.
  simpl in Hgrant. rewrite Hreq in Hgrant. injection Hgrant as <-.
  rewrite startRecording_granted_state in Hrun.
  match type of Hrun with run ?u _ = _ =>
    assert (Hm : recorders u !! length (recorders s)
                 = Some (mkRecorder recording (repeat live tracks) false jd))
      by (cbn; rewrite lookup_app_r by lia; now rewrite Nat.sub_diag)
  end.
  destruct (run_recorder_fields tr _ s2 _ _ Hm Hrun) as (m' & Hm' & Hjd & _).
  simpl in Hstop. rewrite Hm' in Hstop.
  destruct (stop_queued m'); [|easy]. injection Hstop as <-.
  cbn. now rewrite Hjd.
Qed.

(** X8. A recorder that [mediaRecorderRef] no longer holds is out of reach of
    the component: whatever events follow, it keeps recording on the same
    live stream and [mediaRecorderRef] never returns to it. *)
Theorem unreferenced_recorder_never_stops
    (tr : list Event) (s s' : State) (k : nat) (m : MediaRecorder) :
  recorders s !! k = Some m ->
  rec_state m = recording ->
  mediaRecorderRef s <> Some k ->
  run s tr = Some s' ->
  exists m', recorders s' !! k = Some m'
    /\ rec_state m' = recording
    /\ rec_stream m' = rec_stream m
    /\ mediaRecorderRef s' <> Some k.
Proof.
  intros Hm Hst Hk Hrun.
  destruct (run_recorder_fields tr s s' k m Hm Hrun) as (m' & Hm' & _ & Hrest).
  destruct (Hrest Hk) as (Hst' & Hsm' & Hk').
  exists m'. repeat split; congruence.
Qed.

(** *** What each piece of state depends on *)

Lemma stopRecording_ui (s : State) :
  result (stopRecording s) = result s
  /\ jobDescription (stopRecording s) = jobDescription s
  /\ chunksRef (stopRecording s) = chunksRef s.
Proof. destruct (stopRecording_unfold s) as [->|(r & _ & _ & ->)]; easy. Qed.

(** X11. The buffer is one for all recorders.  Between two starts of
    recording it only grows, by every chunk that any recorder delivers,
    in the order of delivery; nothing else writes to it, and the upload
    does not empty it. *)
Theorem buffer_collects_every_chunk (tr : list Event) (s s' : State) :
  forallb (fun ev => negb (is_start ev)) tr = true ->
  run s tr = Some s' ->
  chunksRef s' = chunksRef s ++ delivered tr.
Proof.
  revert s. induction tr as [|ev tr IH]; intros s Hns Hrun; simpl in Hns, Hrun.
  - injection Hrun as <-. simpl. now rewrite app_nil_r.
  - apply andb_prop in Hns as [Hev Htr].
    destruct (step s ev) as [s1|] eqn:Hstep; [|easy].
    rewrite (IH s1 Htr Hrun). clear IH Hrun Htr.
    assert (Hstop : forall u, chunksRef (stopRecording u) = chunksRef u)
      by (intros u; apply stopRecording_ui).
    step_inv Hstep; simpl; rewrite ?app_nil_r; try reflexivity;
      try discriminate Hev.
    + unfold onClick. now destruct (isRecording s); rewrite ?Hstop.
    + cbn. now rewrite <- app_assoc.
    + now destruct o.
    + unfold on_timeout. now destruct (current_is_recording _); rewrite ?Hstop.
Qed.

(** X12. The result on display changes only when an upload is answered with a
    body that parses: starting, recording, stopping, a new upload, a
    failed upload, edits and timers all leave it as it is. *)
Theorem result_changes_only_on_answer (tr : list Event) (s s' : State) :
  forallb (fun ev => negb (is_answer ev)) tr = true ->
  run s tr = Some s' ->
  result s' = result s.
Proof.
  revert s. induction tr as [|ev tr IH]; intros s Hns Hrun; simpl in Hns, Hrun.
  - now injection Hrun as <-.
  - apply andb_prop in Hns as [Hev Htr].
    destruct (step s ev) as [s1|] eqn:Hstep; [|easy].
    rewrite (IH s1 Htr Hrun). clear IH Hrun Htr.
    assert (Hstop : forall u, result (stopRecording u) = result u)
      by (intros u; apply stopRecording_ui).
    step_inv Hstep; try reflexivity.
    + unfold onClick. now destruct (isRecording s); rewrite ?Hstop.
    + destruct o; try reflexivity. discriminate Hev.
    + unfold on_timeout. now destruct (current_is_recording _); rewrite ?Hstop.
Qed.

(** X13. The job description is what the user typed last: after any run it is
    the value of the latest edit, or the value before the run when there
    was none.  No session, upload or failure clears it. *)
Theorem jobDescription_is_last_edit (tr : list Event) (s s' : State) :
  run s tr = Some s' ->
  jobDescription s' = last_change tr (jobDescription s).
Proof.
  revert s. induction tr as [|ev tr IH]; intros s Hrun; simpl in Hrun.
  - now injection Hrun as <-.
  - destruct (step s ev) as [s1|] eqn:Hstep; [|easy].
    rewrite (IH s1 Hrun). clear IH Hrun.
    assert (Hstop : forall u, jobDescription (stopRecording u) = jobDescription u)
      by (intros u; apply stopRecording_ui).
    step_inv Hstep; try reflexivity.
    + unfold onClick. simpl. now destruct (isRecording s); rewrite ?Hstop.
    + simpl. now destruct o.
    + unfold on_timeout. simpl. now destruct (current_is_recording _); rewrite ?Hstop.
Qed.

(** *** Starting, and a session left to its deadline *)

Lemma grant_step (s : State) (i tracks : nat) (jd : string) :
  micRequests s !! i = Some jd ->
  step s (MicGranted i tracks)
  = Some (mkState true (jobDescription s) (loading s) (result s)
            (Some (length (recorders s))) []
            (recorders s ++ [mkRecorder recording (repeat live tracks) false jd])
            (delete i (micRequests s)) (timers s ++ [clock s + 30000]) (clock s)
            (fetches s) (alerts s) (console s)).
Proof.
  intros Hreq. simpl. rewrite Hreq. now rewrite startRecording_granted_state.
Qed.

(** X1. When a pending request for the microphone is granted, recording
    starts: a new recorder, recording on the live stream, is appended and
    becomes the current one, whatever was in the buffer is dropped,
    [isRecording] is true and one more timer is armed, 30 seconds from
    now.  The recorders that exist, the result on display, [loading], the
    job description and the uploads in flight are not touched, and no
    alert is shown. *)
Theorem grant_starts_session (s : State) (i tracks : nat) (jd : string) :
  micRequests s !! i = Some jd ->
  exists s1,
    step s (MicGranted i tracks) = Some s1
    /\ isRecording s1 = true
    /\ chunksRef s1 = []
    /\ mediaRecorderRef s1 = Some (length (recorders s))
    /\ recorders s1
       = recorders s ++ [mkRecorder recording (repeat live tracks) false jd]
    /\ timers s1 = timers s ++ [clock s + 30000]
    /\ micRequests s1 = delete i (micRequests s)
    /\ result s1 = result s
    /\ loading s1 = loading s
    /\ jobDescription s1 = jobDescription s
    /\ fetches s1 = fetches s
    /\ alerts s1 = alerts s.
Proof.
  intros Hreq. simpl. rewrite Hreq. eexists. split; [reflexivity|].
  rewrite startRecording_granted_state. cbn. repeat split.
Qed.

Lemma set_chunksRef_same (u : State) : set_chunksRef (chunksRef u) u = u.
Proof. now destruct u. Qed.

(** A recorder that is recording can deliver any chunks, and they are
    appended to the buffer in order. *)
Lemma deliver_chunks (cs : list Blob) (u : State) (r : nat) (m : MediaRecorder) :
  recorders u !! r = Some m ->
  rec_state m = recording ->
  run u (List.map (DataAvailable r) cs) = Some (set_chunksRef (chunksRef u ++ cs) u).
Proof.
  revert u. induction cs as [|c cs IH]; intros u Hm Hst.
  - simpl. now rewrite app_nil_r, set_chunksRef_same.
  - simpl. rewrite Hm, Hst. simpl.
    rewrite (IH (on_dataavailable c u) Hm Hst).
    unfold on_dataavailable, set_chunksRef. cbn. now rewrite <- app_assoc.
Qed.

Lemma stopRecording_rest (s : State) :
  chunksRef (stopRecording s) = chunksRef s
  /\ timers (stopRecording s) = timers s
  /\ clock (stopRecording s) = clock s
  /\ fetches (stopRecording s) = fetches s.
Proof. destruct (stopRecording_unfold s) as [->|(r & _ & _ & ->)]; easy. Qed.

Lemma elapse_step (s : State) (dt : Z) :
  0 <= dt ->
  forallb (fun t => clock s + dt <=? t) (timers s) = true ->
  step s (Elapse dt) = Some (set_clock (clock s + dt) s).
Proof.
  intros Hdt Hall. simpl. rewrite Hall.
  now destruct (Z.leb_spec 0 dt); [|lia].
Qed.

Lemma timeout_step (s : State) (i : nat) (t : Z) :
  timers s !! i = Some t ->
  t <= clock s ->
  step s (Timeout i) = Some (on_timeout (set_timers (delete i (timers s)) s)).
Proof.
  intros Ht Hle. simpl. rewrite Ht.
  now destruct (Z.leb_spec t (clock s)); [|lia].
Qed.

Lemma stopped_step (s : State) (r : nat) (m : MediaRecorder) :
  recorders s !! r = Some m ->
  stop_queued m = true ->
  step s (Stopped r)
  = Some (on_stop (captured_jobDescription m)
            (set_recorders
               (alter (fun m => mkRecorder (rec_state m) (rec_stream m) false
                                  (captured_jobDescription m)) r (recorders s)) s)).
Proof. intros Hm Hq. simpl. now rewrite Hm, Hq. Qed.

Lemma delete_last {A : Type} (l : list A) (x : A) : delete (length l) (l ++ [x]) = l.
Proof. induction l as [|y l IH]; simpl; [easy|]. now rewrite IH. Qed.

Lemma lookup_last {A : Type} (l : list A) (x : A) : (l ++ [x]) !! length l = Some x.
Proof. rewrite lookup_app_r by lia. now rewrite Nat.sub_diag. Qed.

(** X2. A session that nobody stops ends at its deadline.  From any state
    with a pending request and no timer due within the next 30 seconds:
    grant the microphone, let the recorder deliver any chunks, let 30
    seconds pass; the timer of the session fires, and the [stop] event
    uploads the chunks, in order, with the job description of the click.
    At the end the recorder is inactive, its tracks are stopped,
    [isRecording] is false and [loading] is true. *)
Theorem unattended_session_stops_at_deadline
    (s : State) (i tracks : nat) (jd : string) (cs : list Blob) :
  micRequests s !! i = Some jd ->
  forallb (fun t => clock s + 30000 <=? t) (timers s) = true ->
  let r := length (recorders s) in
  exists s3,
    run s (MicGranted i tracks :: List.map (DataAvailable r) cs
             ++ [Elapse 30000; Timeout (length (timers s)); Stopped r])
    = Some s3
    /\ clock s3 = clock s + 30000
    /\ fetches s3 = fetches s ++ [upload_request (new_Blob cs "audio/wav") jd]
    /\ recorders s3 !! r
       = Some (mkRecorder inactive (List.map (fun _ => ended) (repeat live tracks))
                 false jd)
    /\ isRecording s3 = false
    /\ loading s3 = true
    /\ timers s3 = timers s.
Proof.
  intros Hreq Htimers r.
  pose proof (grant_step s i tracks jd Hreq) as Hgrant.
  set (m := mkRecorder recording (repeat live tracks) false jd) in *.
  set (g := mkState _ _ _ _ _ _ _ _ _ _ _ _ _) in Hgrant.
  assert (Hbuf : chunksRef g = []) by reflexivity.
  assert (Href : mediaRecorderRef g = Some r) by reflexivity.
  assert (Hrecs : recorders g = recorders s ++ [m]) by reflexivity.
  assert (Htim : timers g = timers s ++ [clock s + 30000]) by reflexivity.
  assert (Hfet : fetches g = fetches s) by reflexivity.
  assert (Hclock : clock g = clock s) by reflexivity.
  clearbody g.
  assert (Hm : recorders g !! r = Some m) by (rewrite Hrecs; apply lookup_last).
  cbn [run]. rewrite Hgrant, run_app, (deliver_chunks cs g r m Hm eq_refl).
  rewrite Hbuf. cbn [app].
  set (u1 := set_chunksRef cs g).
  cbn [run].
  rewrite (elapse_step u1 30000) by
    (try lia; change (forallb (fun t => clock g + 30000 <=? t) (timers g) = true);
     rewrite Hclock, Htim, forallb_app, Htimers; simpl; now rewrite Z.leb_refl).
  set (u2 := set_clock (clock u1 + 30000) u1).
  rewrite (timeout_step u2 (length (timers s)) (clock s + 30000)).
  2: { change (timers g !! length (timers s) = Some (clock s + 30000)).
       rewrite Htim. apply lookup_last. }
  2: { change (clock s + 30000 <= clock g + 30000). lia. }
  set (u3 := set_timers (delete (length (timers s)) (timers u2)) u2).
  assert (Hu3 : mediaRecorderRef u3 = Some r /\ recorders u3 !! r = Some m).
  { split; [exact Href|exact Hm]. }
  destruct Hu3 as [Href3 Hm3].
  assert (Hc3 : current_is_recording u3 = true).
  { unfold current_is_recording. now rewrite Href3, Hm3. }
  unfold on_timeout. rewrite Hc3.
  destruct (stopRecording_stops u3 r m Href3 Hm3 eq_refl) as [Hrec4 Hm4].
  set (u4 := stopRecording u3) in *.
  rewrite (stopped_step u4 r _ Hm4 eq_refl).
  eexists. split; [reflexivity|].
  destruct (stopRecording_rest u3) as (Hchunks4 & Htim4 & Hclock4 & Hfet4).
  fold u4 in Hchunks4, Htim4, Hclock4, Hfet4.
  cbn. rewrite Hclock4, Hfet4, Hchunks4, Htim4, Hrec4.
  change (clock u3) with (clock g + 30000).
  change (fetches u3) with (fetches g).
  change (chunksRef u3) with cs.
  change (timers u3) with (delete (length (timers s)) (timers g)).
  rewrite Hclock, Hfet, Htim, delete_last.
  repeat split.
  now rewrite list_lookup_alter_eq, Hm4.
Qed.

(** *** What is on the page *)

Lemma headings_Node (tag : Tag) (cs : list Element) :
  headings (Node tag cs) = flat_map headings cs.
Proof.
  unfold headings at 1. cbn [elements flat_map app].
  induction cs as [|c cs IH]; [reflexivity|].
  cbn [flat_map]. rewrite flat_map_app, <- IH. reflexivity.
Qed.

Lemma progress_indicators_Node (tag : Tag) (cs : list Element) :
  progress_indicators (Node tag cs) = flat_map progress_indicators cs.
Proof.
  unfold progress_indicators at 1. cbn [elements List.filter].
  induction cs as [|c cs IH]; [reflexivity|].
  cbn [flat_map]. rewrite List.filter_app, <- IH. reflexivity.
Qed.

Lemma feedback_paper_lines (fb : list string) :
  typographies (feedback_paper fb)
  = [Str "Feedback & Suggestions"] :: List.map (fun f => [Str f]) fb
  /\ headings (feedback_paper fb) = [[Str "Feedback & Suggestions"]]
  /\ progress_indicators (feedback_paper fb) = [].
Proof.
  unfold feedback_paper.
  rewrite typographies_Node, headings_Node, progress_indicators_Node.
  cbn [flat_map]. repeat split.
  - change (typographies (Typography (Some "h6") [Str "Feedback & Suggestions"]))
      with [[Str "Feedback & Suggestions"]].
    cbn [app]. f_equal. induction fb as [|f fb IH]; [reflexivity|].
    cbn [List.map flat_map]. now rewrite IH.
  - change (headings (Typography (Some "h6") [Str "Feedback & Suggestions"]))
      with [[Str "Feedback & Suggestions"]].
    cbn [app]. f_equal. induction fb as [|f fb IH]; [reflexivity|].
    cbn [List.map flat_map]. now rewrite IH.
  - change (progress_indicators (Typography (Some "h6") [Str "Feedback & Suggestions"]))
      with (@nil Element).
    cbn [app]. induction fb as [|f fb IH]; [reflexivity|].
    cbn [List.map flat_map]. now rewrite IH.
Qed.

Lemma score_paper_sections (sc : ScoreResult) :
  headings (score_paper sc) = [[Str "Job Relevance Analysis"]]
  /\ progress_indicators (score_paper sc) = [].
Proof.
  unfold score_paper. rewrite headings_Node, progress_indicators_Node.
  now destruct (0 <? length (matched_keywords sc))%nat.
Qed.

Lemma result_view_sections (r : ProcessedResult) :
  flat_map headings (result_view r)
  = [[Str "Your Answer"]; [Str "Speech Analysis"]]
    ++ match score r with
       | Some _ => [[Str "Job Relevance Analysis"]]
       | None => []
       end
    ++ [[Str "Feedback & Suggestions"]]
  /\ flat_map progress_indicators (result_view r) = [].
Proof.
  unfold result_view. rewrite !flat_map_app. cbn [flat_map].
  destruct (feedback_paper_lines (feedback r)) as (_ & -> & ->).
  destruct (score r) as [sc|]; cbn [flat_map].
  - destruct (score_paper_sections sc) as [-> ->]. split; reflexivity.
  - split; reflexivity.
Qed.

(** X16. The sections of the page.  The two input sections are always there.
    With a result on display they are followed by the answer, the speech
    analysis, the job relevance section exactly when the result has a
    score, and the feedback, in that order; with no result there is no
    other section.  [loading] has no part in it. *)
Theorem page_sections (s : State) :
  headings (render s)
  = [[Str "Job Description (Optional)"]; [Str "Practice Interview"]]
    ++ match result s with
       | Some r =>
           [[Str "Your Answer"]; [Str "Speech Analysis"]]
           ++ match score r with
              | Some _ => [[Str "Job Relevance Analysis"]]
              | None => []
              end
           ++ [[Str "Feedback & Suggestions"]]
       | None => []
       end.
Proof.
  unfold render. rewrite headings_Node, !flat_map_app.
  replace (flat_map headings (when (loading s) loading_box)) with (@nil (list Child))
    by now destruct (loading s).
  destruct (result s) as [r|]; cbn [flat_map app].
  - rewrite (headings_Node Fragment). destruct (result_view_sections r) as [-> _].
    rewrite (app_nil_r (_ ++ _ ++ _)). reflexivity.
  - reflexivity.
Qed.

(** X17. The page shows one progress indicator while [loading] is true and
    none otherwise, whether or not a result is on display. *)
Theorem progress_shown_iff_loading (s : State) :
  progress_indicators (render s)
  = if loading s then [CircularProgress] else [].
Proof.
  unfold render. rewrite progress_indicators_Node, !flat_map_app.
  destruct (result s) as [r|]; cbn [flat_map app].
  - rewrite (progress_indicators_Node Fragment).
    destruct (result_view_sections r) as [_ ->].
    now destruct (loading s).
  - now destruct (loading s).
Qed.

(** X18. The feedback of the result on display is shown under its heading as
    one line per entry, with the text of the entry, in the order of the
    response; an empty list leaves the heading alone. *)
Theorem feedback_lines_in_order (s : State) (r : ProcessedResult) :
  result s = Some r ->
  In (feedback_paper (feedback r)) (elements (render s))
  /\ List.map text (typographies (feedback_paper (feedback r)))
     = Some "Feedback & Suggestions" :: List.map Some (feedback r).
Proof.
  intros Hres. split.
  - unfold render. rewrite Hres. cbn [elements]. right.
    apply in_flat_map. exists (Node Fragment (result_view r)). split.
    + rewrite !in_app_iff. right. right. now left.
    + cbn [elements]. right. apply in_flat_map.
      exists (feedback_paper (feedback r)). split.
      * unfold result_view. rewrite !in_app_iff. right. right. now left.
      * apply element_in_elements.
  - destruct (feedback_paper_lines (feedback r)) as (-> & _ & _).
    cbn [List.map]. f_equal.
    induction (feedback r) as [|f fb IH]; [reflexivity|].
    cbn [List.map text]. now rewrite append_empty_r, IH.
Qed.

(** ** Instances of the further properties *)

(** While the first session records, the flag and the recorder agree. *)
Lemma reachable_flag_matches_recorder_witness :
  reachable session_started
  /\ isRecording session_started = current_is_recording session_started.
Proof.
  assert (H : reachable session_started)
    by (exists [Click; MicGranted 0 1]; reflexivity).
  split; [exact H|].
  exact (reachable_flag_matches_recorder session_started H).
Defined.

(** After a restart, the stopped recorder has released its track. *)
Lemma reachable_streams_agree_witness :
  reachable restarted_state
  /\ In (mkRecorder inactive [ended] false "") (recorders restarted_state)
  /\ forallb is_ended [ended] = true.
Proof.
  assert (H1 : reachable restarted_state) by (exists restart_trace; reflexivity).
  assert (H2 : In (mkRecorder inactive [ended] false "") (recorders restarted_state))
    by (left; reflexivity).
  split; [exact H1|]. split; [exact H2|].
  exact (reachable_streams_agree restarted_state _ H1 H2).
Defined.

Lemma reachable_loading_has_fetch_witness :
  reachable uploading_state
  /\ loading uploading_state = true
  /\ fetches uploading_state <> [].
Proof.
  assert (H1 : reachable uploading_state) by (exists second_upload_trace; reflexivity).
  assert (H2 : loading uploading_state = true) by reflexivity.
  split; [exact H1|]. split; [exact H2|].
  exact (reachable_loading_has_fetch uploading_state H1 H2).
Defined.

Lemma reachable_fetches_are_uploads_witness :
  reachable uploading_state
  /\ In (upload_request (new_Blob [sample_chunk] "audio/wav") "")
        (fetches uploading_state)
  /\ exists (b : Blob) (jd : string),
       upload_request (new_Blob [sample_chunk] "audio/wav") ""
       = mkRequest "http://localhost:5000/api/process_audio" "POST"
           [("audio", File b); ("job_description", Field jd)]
       /\ blob_type b = "audio/wav".
Proof.
  assert (H1 : reachable uploading_state) by (exists second_upload_trace; reflexivity).
  assert (H2 : In (upload_request (new_Blob [sample_chunk] "audio/wav") "")
                  (fetches uploading_state)) by (left; reflexivity).
  split; [exact H1|]. split; [exact H2|].
  exact (reachable_fetches_are_uploads uploading_state _ H1 H2).
Defined.

(** The timer of a session stopped by hand, firing with nothing
    recording. *)
Lemma idle_timeout_is_harmless_witness :
  reachable idle_due_state
  /\ isRecording idle_due_state = false
  /\ timers idle_due_state !! 0%nat = Some 30000
  /\ 30000 <= clock idle_due_state
  /\ step idle_due_state (Timeout 0)
     = Some (set_timers (delete 0%nat (timers idle_due_state)) idle_due_state).
Proof.
  assert (H1 : reachable idle_due_state).
  { exists [Click; MicGranted 0 1; Elapse 5000; Click;
            DataAvailable 0 sample_chunk; Stopped 0; Elapse 25000].
    reflexivity. }
  assert (H2 : isRecording idle_due_state = false) by reflexivity.
  assert (H3 : timers idle_due_state !! 0%nat = Some 30000) by reflexivity.
  assert (H4 : 30000 <= clock idle_due_state) by (vm_compute; discriminate).
  repeat (split; [assumption|]).
  exact (idle_timeout_is_harmless idle_due_state 0 30000 H1 H2 H3 H4).
Defined.

(** The field says "frontend developer" when the session stops; the
    upload carries "backend developer", the text at the click. *)
Lemma upload_carries_captured_jobDescription_witness :
  micRequests closure_requested !! 0%nat = Some "backend developer"
  /\ step closure_requested (MicGranted 0 1) = Some closure_started
  /\ run closure_started closure_trace = Some closure_stopping
  /\ step closure_stopping (Stopped (length (recorders closure_requested)))
     = Some closure_uploading
  /\ jobDescription closure_stopping = "frontend developer"
  /\ fetches closure_uploading
     = fetches closure_stopping
       ++ [upload_request (new_Blob (chunksRef closure_stopping) "audio/wav")
             "backend developer"].
Proof.
  assert (H1 : micRequests closure_requested !! 0%nat = Some "backend developer")
    by reflexivity.
  assert (H2 : step closure_requested (MicGranted 0 1) = Some closure_started)
    by reflexivity.
  assert (H3 : run closure_started closure_trace = Some closure_stopping)
    by reflexivity.
  assert (H4 : step closure_stopping (Stopped (length (recorders closure_requested)))
               = Some closure_uploading) by reflexivity.
  repeat (split; [assumption|]). split; [reflexivity|].
  exact (upload_carries_captured_jobDescription closure_requested closure_started
           closure_stopping closure_uploading 0 1 "backend developer" closure_trace
           H1 H2 H3 H4).
Defined.

(** The first recorder of a double start, through the stop of the second
    and a whole third session. *)
Lemma unreferenced_recorder_never_stops_witness :
  recorders doubled_state !! 0%nat = Some (mkRecorder recording [live] false "")
  /\ mediaRecorderRef doubled_state <> Some 0%nat
  /\ run doubled_state third_session_trace = Some third_session_state
  /\ exists m', recorders third_session_state !! 0%nat = Some m'
       /\ rec_state m' = recording
       /\ rec_stream m' = [live]
       /\ mediaRecorderRef third_session_state <> Some 0%nat.
Proof.
  assert (H1 : recorders doubled_state !! 0%nat
               = Some (mkRecorder recording [live] false "")) by reflexivity.
  assert (H2 : mediaRecorderRef doubled_state <> Some 0%nat) by discriminate.
  assert (H3 : run doubled_state third_session_trace = Some third_session_state)
    by reflexivity.
  repeat (split; [assumption|]).
  exact (unreferenced_recorder_never_stops third_session_trace doubled_state
           third_session_state 0 _ H1 eq_refl H2 H3).
Defined.

(** With two recorders running, the buffer takes the chunks of both. *)
Lemma buffer_collects_every_chunk_witness :
  forallb (fun ev => negb (is_start ev)) doubled_trace = true
  /\ run doubled_state doubled_trace = Some doubled_later
  /\ chunksRef doubled_later
     = chunksRef doubled_state
       ++ [sample_chunk; mkBlob [Byte.x01] "audio/webm";
           mkBlob [Byte.x02] "audio/webm"; mkBlob [Byte.x03] "audio/webm"].
Proof.
  assert (H1 : forallb (fun ev => negb (is_start ev)) doubled_trace = true)
    by reflexivity.
  assert (H2 : run doubled_state doubled_trace = Some doubled_later) by reflexivity.
  repeat (split; [assumption|]).
  exact (buffer_collects_every_chunk doubled_trace doubled_state doubled_later H1 H2).
Defined.

(** A failed upload and a whole further session whose upload fails too
    leave the first result on display. *)
Lemma result_changes_only_on_answer_witness :
  forallb (fun ev => negb (is_answer ev)) failed_then_recorded_trace = true
  /\ run uploading_state failed_then_recorded_trace = Some failed_then_recorded_state
  /\ result failed_then_recorded_state = Some sample_result.
Proof.
  assert (H1 : forallb (fun ev => negb (is_answer ev)) failed_then_recorded_trace = true)
    by reflexivity.
  assert (H2 : run uploading_state failed_then_recorded_trace
               = Some failed_then_recorded_state) by reflexivity.
  repeat (split; [assumption|]).
  exact (result_changes_only_on_answer failed_then_recorded_trace uploading_state
           failed_then_recorded_state H1 H2).
Defined.

Lemma jobDescription_is_last_edit_witness :
  run closure_started closure_trace = Some closure_stopping
  /\ jobDescription closure_stopping = "frontend developer".
Proof.
  assert (H1 : run closure_started closure_trace = Some closure_stopping)
    by reflexivity.
  split; [exact H1|].
  exact (jobDescription_is_last_edit closure_trace closure_started closure_stopping H1).
Defined.

Lemma grant_starts_session_witness :
  micRequests closure_requested !! 0%nat = Some "backend developer"
  /\ exists s1,
       step closure_requested (MicGranted 0 2) = Some s1
       /\ isRecording s1 = true
       /\ chunksRef s1 = []
       /\ mediaRecorderRef s1 = Some (length (recorders closure_requested))
       /\ recorders s1
          = recorders closure_requested
            ++ [mkRecorder recording (repeat live 2) false "backend developer"]
       /\ timers s1 = timers closure_requested ++ [clock closure_requested + 30000]
       /\ micRequests s1 = delete 0%nat (micRequests closure_requested)
       /\ result s1 = result closure_requested
       /\ loading s1 = loading closure_requested
       /\ jobDescription s1 = jobDescription closure_requested
       /\ fetches s1 = fetches closure_requested
       /\ alerts s1 = alerts closure_requested.
Proof.
  assert (H1 : micRequests closure_requested !! 0%nat = Some "backend developer")
    by reflexivity.
  split; [exact H1|].
  exact (grant_starts_session closure_requested 0 2 "backend developer" H1).
Defined.

Lemma unattended_session_stops_at_deadline_witness :
  micRequests closure_requested !! 0%nat = Some "backend developer"
  /\ forallb (fun t => clock closure_requested + 30000 <=? t)
       (timers closure_requested) = true
  /\ exists s3,
       run closure_requested
         (MicGranted 0 1
            :: List.map (DataAvailable (length (recorders closure_requested)))
                 [sample_chunk]
            ++ [Elapse 30000; Timeout (length (timers closure_requested));
                Stopped (length (recorders closure_requested))])
       = Some s3
       /\ clock s3 = clock closure_requested + 30000
       /\ fetches s3
          = fetches closure_requested
            ++ [upload_request (new_Blob [sample_chunk] "audio/wav")
                  "backend developer"]
       /\ recorders s3 !! length (recorders closure_requested)
          = Some (mkRecorder inactive (List.map (fun _ => ended) (repeat live 1))
                    false "backend developer")
       /\ isRecording s3 = false
       /\ loading s3 = true
       /\ timers s3 = timers closure_requested.
Proof.
  assert (H1 : micRequests closure_requested !! 0%nat = Some "backend developer")
    by reflexivity.
  assert (H2 : forallb (fun t => clock closure_requested + 30000 <=? t)
                 (timers closure_requested) = true) by reflexivity.
  repeat (split; [assumption|]).
  exact (unattended_session_stops_at_deadline closure_requested 0 1
           "backend developer" [sample_chunk] H1 H2).
Defined.

Lemma session_runs_witness :
  micRequests closure_requested !! 0%nat = Some "backend developer"
  /\ exists s3,
       run closure_requested
         (MicGranted 0 1
            :: List.map (DataAvailable (length (recorders closure_requested)))
                 [sample_chunk; sample_chunk]
            ++ [Click; Stopped (length (recorders closure_requested))])
       = Some s3
       /\ fetches s3
          = fetches closure_requested
            ++ [upload_request (new_Blob [sample_chunk; sample_chunk] "audio/wav")
                  "backend developer"]
       /\ isRecording s3 = false.
Proof.
  assert (H1 : micRequests closure_requested !! 0%nat = Some "backend developer")
    by reflexivity.
  split; [exact H1|].
  exact (session_runs closure_requested 0 1 "backend developer"
           [sample_chunk; sample_chunk] H1).
Defined.

Lemma start_denied_roundtrip_witness :
  isRecording uploading_state = false
  /\ run uploading_state
       [Click; MicDenied (length (micRequests uploading_state)) "NotAllowedError"]
     = Some (startRecording_catch "NotAllowedError" uploading_state).
Proof.
  assert (H1 : isRecording uploading_state = false) by reflexivity.
  split; [exact H1|].
  exact (start_denied_roundtrip uploading_state "NotAllowedError" H1).
Defined.

Lemma feedback_lines_in_order_witness :
  result uploading_state = Some sample_result
  /\ In (feedback_paper (feedback sample_result)) (elements (render uploading_state))
  /\ List.map text (typographies (feedback_paper (feedback sample_result)))
     = Some "Feedback & Suggestions" :: List.map Some (feedback sample_result).
Proof.
  assert (H1 : result uploading_state = Some sample_result) by reflexivity.
  split; [exact H1|].
  exact (feedback_lines_in_order uploading_state sample_result H1).
Defined.

(** *** Uploads that overlap, and the speech analysis *)

(** X19. Two uploads in flight are not kept apart.  When the later one is
    answered first, [loading] is cleared although the earlier one is still
    in flight; and when the earlier one is answered after it, its body
    replaces the result of the later submission. *)
Theorem late_response_overwrites
    (s : State) (i j : nat) (a b : Request)
    (st1 st2 : Z) (d1 d2 : option ProcessedResult) :
  (i < j)%nat ->
  fetches s !! i = Some a ->
  fetches s !! j = Some b ->
  exists s1 s2,
    step s (Settled j (Body st2 d2)) = Some s1
    /\ loading s1 = false
    /\ fetches s1 !! i = Some a
    /\ result s1 = d2
    /\ step s1 (Settled i (Body st1 d1)) = Some s2
    /\ result s2 = d1
    /\ loading s2 = false.
Proof.
  intros Hlt Ha Hb.
  assert (Hi : delete j (fetches s) !! i = Some a)
    by (rewrite list_lookup_delete_lt by exact Hlt; exact Ha).
  do 2 eexists. split; [simpl; rewrite Hb; reflexivity|].
  split; [reflexivity|]. split; [exact Hi|]. split; [reflexivity|].
  split.
  - simpl. cbn in Hi |- *. rewrite Hi. reflexivity.
  - split; reflexivity.
Qed.

(** X20. The speech analysis block shows the two counts as the numbers of the
    response and, for a ratio whose product with 100 is in the range that
    [toFixed] prints in fixed notation, that product to the nearest tenth
    with one digit after the point and a percent sign. *)
Theorem analysis_block_display (a : AnalysisResult) :
  fixed_range (Number.mul (filler_ratio a) (of_Z 100)) = true ->
  exists n,
    nearest_tenth (Number.mul (filler_ratio a) (of_Z 100)) n
    /\ String.length (dec (n mod 10)) = 1%nat
    /\ typographies (analysis_paper a)
       = [[Str "Speech Analysis"];
          [Str "Total Words"]; [Num (total_words a)];
          [Str "Filler Words"]; [Num (filler_words a)];
          [Str "Filler Word Ratio"];
          [Str (sign_text (Number.mul (filler_ratio a) (of_Z 100))
                +:+ dec (n / 10) +:+ "." +:+ dec (n mod 10));
           Str "%"]].
Proof.
  intros Hrange.
  destruct (toFixed_one_decimal _ Hrange) as (n & Hnear & Hlen & Hfix).
  exists n. split; [exact Hnear|]. split; [exact Hlen|].
  unfold analysis_paper. rewrite Hfix. reflexivity.
Qed.

(** A ratio of 0.125 is shown as 12.5%, and one of 0 as 0.0%. *)
Example analysis_block_example :
  List.map text (typographies
    (analysis_paper (mkAnalysis (of_Z 8) (of_Z 1) (of_decimal 125 3))))
  = [Some "Speech Analysis"; Some "Total Words"; None; Some "Filler Words"; None;
     Some "Filler Word Ratio"; Some "12.5%"]
  /\ text [toFixed 1 (Number.mul (of_Z 0) (of_Z 100)); Str "%"] = Some "0.0%".
Proof. split; vm_compute; reflexivity. Qed.

Lemma late_response_overwrites_witness :
  (0 < 1)%nat
  /\ fetches two_uploads_state !! 0%nat
     = Some (upload_request (new_Blob [sample_chunk] "audio/wav") "")
  /\ fetches two_uploads_state !! 1%nat
     = Some (upload_request (new_Blob [sample_chunk] "audio/wav") "")
  /\ exists s1 s2,
       step two_uploads_state (Settled 1 (Body 200 (Some scored_result)))
       = Some s1
       /\ loading s1 = false
       /\ fetches s1 !! 0%nat
          = Some (upload_request (new_Blob [sample_chunk] "audio/wav") "")
       /\ result s1 = Some scored_result
       /\ step s1 (Settled 0 (Body 200 (Some sample_result))) = Some s2
       /\ result s2 = Some sample_result
       /\ loading s2 = false.
Proof.
  assert (H1 : (0 < 1)%nat) by lia.
  assert (H2 : fetches two_uploads_state !! 0%nat
               = Some (upload_request (new_Blob [sample_chunk] "audio/wav") ""))
    by reflexivity.
  assert (H3 : fetches two_uploads_state !! 1%nat
               = Some (upload_request (new_Blob [sample_chunk] "audio/wav") ""))
    by reflexivity.
  repeat (split; [assumption|]).
  exact (late_response_overwrites two_uploads_state 0 1 _ _ 200 200
           (Some sample_result) (Some scored_result) H1 H2 H3).
Defined.

Lemma analysis_block_display_witness :
  let a := mkAnalysis (of_Z 8) (of_Z 1) (of_decimal 125 3) in
  fixed_range (Number.mul (filler_ratio a) (of_Z 100)) = true
  /\ exists n,
       nearest_tenth (Number.mul (filler_ratio a) (of_Z 100)) n
       /\ String.length (dec (n mod 10)) = 1%nat
       /\ typographies (analysis_paper a)
          = [[Str "Speech Analysis"];
             [Str "Total Words"]; [Num (total_words a)];
             [Str "Filler Words"]; [Num (filler_words a)];
             [Str "Filler Word Ratio"];
             [Str (sign_text (Number.mul (filler_ratio a) (of_Z 100))
                   +:+ dec (n / 10) +:+ "." +:+ dec (n mod 10));
              Str "%"]].
Proof.
  intros a.
  assert (H1 : fixed_range (Number.mul (filler_ratio a) (of_Z 100)) = true)
    by (vm_compute; reflexivity).
  split; [exact H1|].
  exact (analysis_block_display a H1).
Defined.
